(** * Water Quality Monitor: scorer, validator and history ledger

    A shallow embedding of [water_quality_app.py]:
    [validate_input], [predict_water_quality] and the session history
    handling of [water_test_page] and [history_page].

    Numbers.  The functions are transcribed twice.  In the first
    transcription a Python float that the form can deliver is a finite
    binary fraction, modelled by the rational it denotes ([Q]) with exact
    arithmetic; the threshold tests, the statuses, the warnings and the
    history are studied there.  In the second, module [IEEE], a float is
    a binary64 value, NaN and the infinities included, and every operation
    rounds as Python's does; what depends on the rounding of the sum and of
    [round(x, 1)], or on NaN, is stated there. *)

From Stdlib Require Import ZArith QArith Qround Lqa Lia Bool.
From Stdlib Require Floats.
From stdpp Require Import gmap strings list fin_maps pretty.

Local Open Scope Z_scope.

(** ** Python values, exceptions *)

Module Py.

(** The values a field of the [data] dict can hold. *)
Inductive value : Type :=
| Float (q : Q)
| Str (s : string)
| NoneV.

Inductive exn : Type :=
| KeyError (key : string)
| TypeError.

(** A computation that returns or raises. *)
Inductive res (A : Type) : Type :=
| Ok (a : A)
| Raise (e : exn).
Arguments Ok {A} a.
Arguments Raise {A} e.

Definition bind {A B} (c : res A) (k : A -> res B) : res B :=
  match c with
  | Ok a => k a
  | Raise e => Raise e
  end.

(** [x < y] and [x <= y] on numbers. *)
Definition Qltb (x y : Q) : bool :=
  match (x ?= y)%Q with Lt => true | _ => false end.
Definition Qleb (x y : Q) : bool :=
  match (x ?= y)%Q with Gt => false | _ => true end.

(** [a < b] and [a <= b]: defined between numbers, [TypeError] otherwise. *)
Definition lt (a b : value) : res bool :=
  match a, b with
  | Float x, Float y => Ok (Qltb x y)
  | _, _ => Raise TypeError
  end.
Definition le (a b : value) : res bool :=
  match a, b with
  | Float x, Float y => Ok (Qleb x y)
  | _, _ => Raise TypeError
  end.
Definition gt (a b : value) : res bool := lt b a.

(** [d[k]] on a dict with string keys. *)
Definition getitem {V} (d : gmap string V) (k : string) : res V :=
  match d !! k with
  | Some v => Ok v
  | None => Raise (KeyError k)
  end.

(** [d[k] = v] on a dict that remembers insertion order: an existing key
    keeps its place, a new key goes last. *)
Fixpoint setitem {V} (d : list (string * V)) (k : string) (v : V)
  : list (string * V) :=
  match d with
  | [] => [(k, v)]
  | (k', v') :: d' =>
      if String.eqb k' k then (k', v) :: d' else (k', v') :: setitem d' k v
  end.

(** [d.get(k)] on such a dict. *)
Fixpoint get {V} (d : list (string * V)) (k : string) : option V :=
  match d with
  | [] => None
  | (k', v) :: d' => if String.eqb k' k then Some v else get d' k
  end.

(** [round(x, 1)]: the nearest multiple of one tenth, a tie going to the
    even one. *)
Definition round_half_even (t : Q) : Z :=
  let f := Qfloor t in
  match (t - inject_Z f ?= 1 # 2)%Q with
  | Lt => f
  | Gt => f + 1
  | Eq => if Z.even f then f else f + 1
  end.
Definition round1 (x : Q) : Q :=
  Qmake (round_half_even (x * 10)) 10.

End Py.

Notation "'let*' x ':=' c 'in' k" := (Py.bind c (fun x => k))
  (at level 10, x name, c at level 100, k at level 200, only parsing).

(** ** Data model *)

Abbreviation data_dict := (gmap string Py.value).

Inductive status_tag : Type := good | warning.

(** One entry of [parameter_status]. *)
Record ParameterStatus : Type := mkStatus {
  status : status_tag;
  value : Py.value;
  unit_ : string
}.

Inductive quality_label : Type := Excellent | Good | Fair | Poor.

(** The dict returned by [predict_water_quality]. *)
Record ScoreResult : Type := mkResult {
  potable : bool;
  confidence : Q;
  quality : quality_label;
  parameters : list (string * ParameterStatus)
}.

(** ** The scorer: [predict_water_quality] *)

(** Feature importance weights. *)
Definition weights : gmap string Q :=
  <["sulfate" := 0.142%Q]> (
  <["ph" := 0.128%Q]> (
  <["hardness" := 0.119%Q]> (
  <["solids" := 0.114%Q]> (
  <["chloramines" := 0.108%Q]> (
  <["conductivity" := 0.102%Q]> (
  <["organic_carbon" := 0.098%Q]> (
  <["trihalomethanes" := 0.095%Q]> (
  <["turbidity" := 0.094%Q]> ∅)))))))).

(** The two locals the threshold checks update. *)
Definition acc : Type := (Q * list (string * ParameterStatus))%type.

(** [score += weights[key] * factor] *)
Definition add_score (key : string) (factor : Q) (a : acc) : Py.res acc :=
  let* w := Py.getitem weights key in
  Py.Ok ((fst a + w * factor)%Q, snd a).

(** [parameter_status[name] = {'status': st, 'value': data[key], 'unit': u}] *)
Definition set_status (data : data_dict) (name : string) (st : status_tag)
    (key u : string) (a : acc) : Py.res acc :=
  let* v := Py.getitem data key in
  Py.Ok (fst a, Py.setitem (snd a) name (mkStatus st v u)).

(** The chained comparison [6.5 <= data['ph'] <= 8.5] reads [data['ph']]
    once and compares it with 8.5 only when the first test holds. *)
Definition check_ph (data : data_dict) (a : acc) : Py.res acc :=
  let* x := Py.getitem data "ph" in
  let* lo := Py.le (Py.Float 6.5) x in
  let* inside := (if lo then Py.le x (Py.Float 8.5) else Py.Ok false) in
  if inside
  then let* a := add_score "ph" 100 a in
       set_status data "pH" good "ph" "" a
  else let* a := add_score "ph" 50 a in
       set_status data "pH" warning "ph" "" a.

Definition check_hardness (data : data_dict) (a : acc) : Py.res acc :=
  let* x := Py.getitem data "hardness" in
  let* c := Py.lt x (Py.Float 300) in
  if c
  then let* a := add_score "hardness" 100 a in
       set_status data "Hardness" good "hardness" "mg/L" a
  else let* a := add_score "hardness" 60 a in
       set_status data "Hardness" warning "hardness" "mg/L" a.

Definition check_sulfate (data : data_dict) (a : acc) : Py.res acc :=
  let* x := Py.getitem data "sulfate" in
  let* c := Py.lt x (Py.Float 250) in
  if c
  then let* a := add_score "sulfate" 100 a in
       set_status data "Sulfate" good "sulfate" "mg/L" a
  else let* a := add_score "sulfate" 50 a in
       set_status data "Sulfate" warning "sulfate" "mg/L" a.

Definition check_solids (data : data_dict) (a : acc) : Py.res acc :=
  let* x := Py.getitem data "solids" in
  let* c := Py.lt x (Py.Float 500) in
  if c
  then let* a := add_score "solids" 100 a in
       set_status data "TDS" good "solids" "ppm" a
  else
    let* x' := Py.getitem data "solids" in
    let* c' := Py.lt x' (Py.Float 1000) in
    if c'
    then let* a := add_score "solids" 70 a in
         set_status data "TDS" warning "solids" "ppm" a
    else let* a := add_score "solids" 40 a in
         set_status data "TDS" warning "solids" "ppm" a.

Definition check_chloramines (data : data_dict) (a : acc) : Py.res acc :=
  let* x := Py.getitem data "chloramines" in
  let* c := Py.lt x (Py.Float 4) in
  if c
  then let* a := add_score "chloramines" 100 a in
       set_status data "Chloramines" good "chloramines" "ppm" a
  else let* a := add_score "chloramines" 60 a in
       set_status data "Chloramines" warning "chloramines" "ppm" a.

Definition check_conductivity (data : data_dict) (a : acc) : Py.res acc :=
  let* x := Py.getitem data "conductivity" in
  let* c := Py.lt x (Py.Float 400) in
  if c
  then let* a := add_score "conductivity" 100 a in
       set_status data "Conductivity" good "conductivity" "μS/cm" a
  else let* a := add_score "conductivity" 70 a in
       set_status data "Conductivity" warning "conductivity" "μS/cm" a.

Definition check_organic_carbon (data : data_dict) (a : acc) : Py.res acc :=
  let* x := Py.getitem data "organic_carbon" in
  let* c := Py.lt x (Py.Float 2) in
  if c
  then let* a := add_score "organic_carbon" 100 a in
       set_status data "Organic Carbon" good "organic_carbon" "ppm" a
  else let* a := add_score "organic_carbon" 70 a in
       set_status data "Organic Carbon" warning "organic_carbon" "ppm" a.

Definition check_trihalomethanes (data : data_dict) (a : acc) : Py.res acc :=
  let* x := Py.getitem data "trihalomethanes" in
  let* c := Py.lt x (Py.Float 80) in
  if c
  then let* a := add_score "trihalomethanes" 100 a in
       set_status data "Trihalomethanes" good "trihalomethanes" "μg/L" a
  else let* a := add_score "trihalomethanes" 50 a in
       set_status data "Trihalomethanes" warning "trihalomethanes" "μg/L" a.

Definition check_turbidity (data : data_dict) (a : acc) : Py.res acc :=
  let* x := Py.getitem data "turbidity" in
  let* c := Py.lt x (Py.Float 5) in
  if c
  then let* a := add_score "turbidity" 100 a in
       set_status data "Turbidity" good "turbidity" "NTU" a
  else let* a := add_score "turbidity" 60 a in
       set_status data "Turbidity" warning "turbidity" "NTU" a.

(** The nine checks in source order, from [score = 0] and
    [parameter_status = {}]. *)
Definition weighted_score (data : data_dict) : Py.res acc :=
  let* a := check_ph data (0%Q, []) in
  let* a := check_hardness data a in
  let* a := check_sulfate data a in
  let* a := check_solids data a in
  let* a := check_chloramines data a in
  let* a := check_conductivity data a in
  let* a := check_organic_carbon data a in
  let* a := check_trihalomethanes data a in
  check_turbidity data a.

(** The quality grade of a final score. *)
Definition grade (final_score : Q) : quality_label :=
  if Py.Qltb 85 final_score then Excellent
  else if Py.Qltb 70 final_score then Good
  else if Py.Qltb 50 final_score then Fair
  else Poor.

(** The body of the [try] block. *)
Definition predict_water_quality_try (data : data_dict) : Py.res ScoreResult :=
  let* a := weighted_score data in
  let final_score := (fst a / 9)%Q in
  let quality := grade final_score in
  Py.Ok {| potable := Py.Qltb 70 final_score;
           confidence := Py.round1 final_score;
           quality := quality;
           parameters := snd a |}.

(** What the page shows. *)
Inductive ui_event : Type :=
| StError (e : Py.exn)
| StWarning (msg : string)
| StInfo (msg : string)
| DisplayResults (result : ScoreResult) (data : data_dict).

(** [predict_water_quality]: an exception is reported with [st.error] and
    the function returns [None]. *)
Definition predict_water_quality (data : data_dict)
  : option ScoreResult * list ui_event :=
  match predict_water_quality_try data with
  | Py.Ok r => (Some r, [])
  | Py.Raise e => (None, [StError e])
  end.

(** ** The validator: [validate_input] *)

Definition hard_ph_warning : string :=
  "⚠️ pH is outside realistic range for natural water (4-10)".
Definition soft_ph_warning : string :=
  "⚠️ pH is outside WHO recommended range (6.5-8.5)".

(** [data[key] < lo or data[key] > hi]; the right operand of [or] is
    evaluated only when the left one is false. *)
Definition outside (data : data_dict) (key : string) (lo hi : Q)
  : Py.res bool :=
  let* x := Py.getitem data key in
  let* below := Py.lt x (Py.Float lo) in
  if below then Py.Ok true
  else let* y := Py.getitem data key in Py.gt y (Py.Float hi).

(** [if data[key] > limit: warnings.append(msg)] *)
Definition warn_above (data : data_dict) (key : string) (limit : Q)
    (msg : string) (warnings : list string) : Py.res (list string) :=
  let* x := Py.getitem data key in
  let* c := Py.gt x (Py.Float limit) in
  Py.Ok (if c then warnings ++ [msg] else warnings).

Definition validate_ph (data : data_dict) (warnings : list string)
  : Py.res (list string) :=
  let* hard := outside data "ph" 4 10 in
  if hard then Py.Ok (warnings ++ [hard_ph_warning])
  else
    let* soft := outside data "ph" 6.5 8.5 in
    Py.Ok (if soft then warnings ++ [soft_ph_warning] else warnings).

Definition hardness_warning : string :=
  "⚠️ Water hardness is extremely high (>500 mg/L)".
Definition solids_warning : string :=
  "⚠️ Total Dissolved Solids is extremely high (>1500 ppm)".
Definition chloramines_warning : string :=
  "⚠️ Chloramines level is extremely high (>8 ppm)".
Definition sulfate_warning : string :=
  "⚠️ Sulfate level exceeds WHO guideline (>500 mg/L)".
Definition conductivity_warning : string :=
  "⚠️ Conductivity is extremely high (>1500 μS/cm)".
Definition organic_carbon_warning : string :=
  "⚠️ Organic carbon is extremely high (>5 ppm)".
Definition trihalomethanes_warning : string :=
  "⚠️ Trihalomethanes significantly exceed EPA limit (>160 μg/L)".
Definition turbidity_warning : string :=
  "⚠️ Turbidity is extremely high (>10 NTU)".

Definition validate_input (data : data_dict) : Py.res (list string) :=
  let* w := validate_ph data [] in
  let* w := warn_above data "hardness" 500 hardness_warning w in
  let* w := warn_above data "solids" 1500 solids_warning w in
  let* w := warn_above data "chloramines" 8 chloramines_warning w in
  let* w := warn_above data "sulfate" 500 sulfate_warning w in
  let* w := warn_above data "conductivity" 1500 conductivity_warning w in
  let* w := warn_above data "organic_carbon" 5 organic_carbon_warning w in
  let* w := warn_above data "trihalomethanes" 160 trihalomethanes_warning w in
  warn_above data "turbidity" 10 turbidity_warning w.

(** ** Session state and the history ledger *)

(** The nine numbers of the form. *)
Record Measurement : Type := mkMeasurement {
  m_ph : Q;
  m_hardness : Q;
  m_solids : Q;
  m_chloramines : Q;
  m_sulfate : Q;
  m_conductivity : Q;
  m_organic_carbon : Q;
  m_trihalomethanes : Q;
  m_turbidity : Q
}.

Record HistoryEntry : Type := mkEntry {
  timestamp : string;
  result : ScoreResult;
  data : data_dict
}.

(** [st.session_state]: the form's values and the history list. *)
Record session_state : Type := mkSession {
  inputs : Measurement;
  history : list HistoryEntry
}.

(** The [data] dict the Analyze button builds from the session state. *)
Definition prepare_data (m : Measurement) : data_dict :=
  <["ph" := Py.Float (m_ph m)]> (
  <["hardness" := Py.Float (m_hardness m)]> (
  <["solids" := Py.Float (m_solids m)]> (
  <["chloramines" := Py.Float (m_chloramines m)]> (
  <["sulfate" := Py.Float (m_sulfate m)]> (
  <["conductivity" := Py.Float (m_conductivity m)]> (
  <["organic_carbon" := Py.Float (m_organic_carbon m)]> (
  <["trihalomethanes" := Py.Float (m_trihalomethanes m)]> (
  <["turbidity" := Py.Float (m_turbidity m)]> ∅)))))))).

(** The keys [predict_water_quality] reads. *)
Definition required_keys : list string :=
  ["ph"; "hardness"; "sulfate"; "solids"; "chloramines"; "conductivity";
   "organic_carbon"; "trihalomethanes"; "turbidity"].

(** [history.insert(0, entry)], then the slice [history[:50]] when the list
    has grown past 50. *)
Definition history_append (entry : HistoryEntry) (h : list HistoryEntry)
  : list HistoryEntry :=
  let h' := entry :: h in
  if (50 <? length h')%nat then take 50 h' else h'.

(** The Clear History button. *)
Definition history_clear (h : list HistoryEntry) : list HistoryEntry := [].

(** The end of one run of the page script: the session state it leaves,
    what it showed, and the exception that stopped it, if any. *)
Record outcome : Type := mkOutcome {
  final : session_state;
  shown : list ui_event;
  uncaught : option Py.exn
}.

Definition show_warnings (warnings : list string) : list ui_event :=
  match warnings with
  | [] => []
  | _ => StWarning "### Input Validation Warnings"
         :: map StWarning warnings
         ++ [StInfo "💡 The analysis will continue, but please verify your input values."]
  end.

(** The Analyze branch of [water_test_page], from the [data] dict on;
    [now] is the formatted [datetime.now()]. *)
Definition analyze (now : string) (data : data_dict) (s : session_state)
  : outcome :=
  match validate_input data with
  | Py.Raise e => mkOutcome s [] (Some e)
  | Py.Ok warnings =>
      let ev := show_warnings warnings in
      let '(result, ev') := predict_water_quality data in
      match result with
      | Some r =>
          let history_entry := mkEntry now r data in
          let s' := mkSession (inputs s)
                      (history_append history_entry (history s)) in
          mkOutcome s' (ev ++ ev' ++ [DisplayResults r data]) None
      | None => mkOutcome s (ev ++ ev') None
      end
  end.

(** The Analyze button. *)
Definition analyze_button (now : string) (s : session_state) : outcome :=
  analyze now (prepare_data (inputs s)) s.

(** The Clear History button of [history_page]. *)
Definition clear_button (s : session_state) : session_state :=
  mkSession (inputs s) (history_clear (history s)).

(** [initialize_session_state] on a fresh session: the form's defaults and
    an empty history. *)
Definition initial_session : session_state :=
  mkSession (mkMeasurement 7.0 200.0 400.0 3.0 200.0 350.0 1.5 60.0 3.0) [].

(** What the user can do between two runs of the script. *)
Inductive action : Type :=
| Fill (m : Measurement)
| Analyze (now : string)
| AnalyzeDict (now : string) (data : data_dict)
| ClearHistory.

Definition step (s : session_state) (act : action) : session_state :=
  match act with
  | Fill m => mkSession m (history s)
  | Analyze now => final (analyze_button now s)
  | AnalyzeDict now data => final (analyze now data s)
  | ClearHistory => clear_button s
  end.

Definition run (s : session_state) (acts : list action) : session_state :=
  foldl step s acts.

(** The ledger on its own: appends and clears in any order. *)
Inductive ledger_op : Type :=
| Append (entry : HistoryEntry)
| Clear.

Definition ledger_step (h : list HistoryEntry) (op : ledger_op)
  : list HistoryEntry :=
  match op with
  | Append entry => history_append entry h
  | Clear => history_clear h
  end.

(** The results a run of the script displayed. *)
Definition results_shown (o : outcome) : list ScoreResult :=
  omap (fun ev => match ev with
                  | DisplayResults r _ => Some r
                  | _ => None
                  end) (shown o).

(** ** Worked inputs *)

Definition safe_example : Measurement :=
  mkMeasurement 7.2 180 350 2.5 180 320 1.2 45 2.8.
Definition unsafe_example : Measurement :=
  mkMeasurement 5.2 450 1200 6.5 380 650 4.8 120 8.5.

(** ** Closed forms

    What the code computes on a Measurement, written out as functions of
    the Measurement; each is proved equal to the code below. *)

(** [data] holds the nine numbers of [m] under the nine keys. *)
Definition reads (data : data_dict) (m : Measurement) : Prop :=
  data !! "ph" = Some (Py.Float (m_ph m))
  /\ data !! "hardness" = Some (Py.Float (m_hardness m))
  /\ data !! "solids" = Some (Py.Float (m_solids m))
  /\ data !! "chloramines" = Some (Py.Float (m_chloramines m))
  /\ data !! "sulfate" = Some (Py.Float (m_sulfate m))
  /\ data !! "conductivity" = Some (Py.Float (m_conductivity m))
  /\ data !! "organic_carbon" = Some (Py.Float (m_organic_carbon m))
  /\ data !! "trihalomethanes" = Some (Py.Float (m_trihalomethanes m))
  /\ data !! "turbidity" = Some (Py.Float (m_turbidity m)).

(** What a check leaves in the two locals, given the factor and the tag
    it chose. *)
Definition credited (w factor : Q) (name : string) (st : status_tag)
    (x : Q) (u : string) (a : acc) : acc :=
  ((fst a + w * factor)%Q,
   Py.setitem (snd a) name (mkStatus st (Py.Float x) u)).

Definition tag (c : bool) : status_tag := if c then good else warning.

(** The nine tests the scorer makes on [m], in source order. *)
Record tests : Type := mkTests {
  t_ph : bool; t_hardness : bool; t_sulfate : bool;
  t_solids : bool; t_solids' : bool; t_chloramines : bool;
  t_conductivity : bool; t_organic_carbon : bool;
  t_trihalomethanes : bool; t_turbidity : bool
}.

Definition tests_of (m : Measurement) : tests :=
  {| t_ph := Py.Qleb 6.5 (m_ph m) && Py.Qleb (m_ph m) 8.5;
     t_hardness := Py.Qltb (m_hardness m) 300;
     t_sulfate := Py.Qltb (m_sulfate m) 250;
     t_solids := Py.Qltb (m_solids m) 500;
     t_solids' := Py.Qltb (m_solids m) 1000;
     t_chloramines := Py.Qltb (m_chloramines m) 4;
     t_conductivity := Py.Qltb (m_conductivity m) 400;
     t_organic_carbon := Py.Qltb (m_organic_carbon m) 2;
     t_trihalomethanes := Py.Qltb (m_trihalomethanes m) 80;
     t_turbidity := Py.Qltb (m_turbidity m) 5 |}.

(** The two locals after the nine checks, as a function of the tests. *)
Definition score_after (t : tests) : Q :=
  (0 + 0.128 * (if t_ph t then 100 else 50)
     + 0.119 * (if t_hardness t then 100 else 60)
     + 0.142 * (if t_sulfate t then 100 else 50)
     + 0.114 * (if t_solids t then 100 else if t_solids' t then 70 else 40)
     + 0.108 * (if t_chloramines t then 100 else 60)
     + 0.102 * (if t_conductivity t then 100 else 70)
     + 0.098 * (if t_organic_carbon t then 100 else 70)
     + 0.095 * (if t_trihalomethanes t then 100 else 50)
     + 0.094 * (if t_turbidity t then 100 else 60))%Q.

Definition statuses_after (m : Measurement) (t : tests)
  : list (string * ParameterStatus) :=
  [("pH", mkStatus (tag (t_ph t)) (Py.Float (m_ph m)) "");
   ("Hardness",
    mkStatus (tag (t_hardness t)) (Py.Float (m_hardness m)) "mg/L");
   ("Sulfate", mkStatus (tag (t_sulfate t)) (Py.Float (m_sulfate m)) "mg/L");
   ("TDS", mkStatus (tag (t_solids t)) (Py.Float (m_solids m)) "ppm");
   ("Chloramines",
    mkStatus (tag (t_chloramines t)) (Py.Float (m_chloramines m)) "ppm");
   ("Conductivity",
    mkStatus (tag (t_conductivity t)) (Py.Float (m_conductivity m)) "μS/cm");
   ("Organic Carbon",
    mkStatus (tag (t_organic_carbon t))
      (Py.Float (m_organic_carbon m)) "ppm");
   ("Trihalomethanes",
    mkStatus (tag (t_trihalomethanes t))
      (Py.Float (m_trihalomethanes m)) "μg/L");
   ("Turbidity",
    mkStatus (tag (t_turbidity t)) (Py.Float (m_turbidity m)) "NTU")].

(** The returned dict as a function of the tests. *)
Definition result_after (m : Measurement) (t : tests) : ScoreResult :=
  {| potable := Py.Qltb 70 (score_after t / 9);
     confidence := Py.round1 (score_after t / 9);
     quality := grade (score_after t / 9);
     parameters := statuses_after m t |}.

Definition safe_example_result : ScoreResult :=
  {| potable := false;
     confidence := 11.1;
     quality := Poor;
     parameters := statuses_after safe_example (tests_of safe_example) |}.

(** The messages of the flags that are raised, in order. *)
Fixpoint flagged (l : list (bool * string)) : list string :=
  match l with
  | [] => []
  | (c, msg) :: l' => (if c then [msg] else []) ++ flagged l'
  end.

Definition ph_warnings (x : Q) : list string :=
  if Py.Qltb x 4 || Py.Qltb 10 x then [hard_ph_warning]
  else if Py.Qltb x 6.5 || Py.Qltb 8.5 x then [soft_ph_warning]
  else [].

Definition other_flags (m : Measurement) : list (bool * string) :=
  [(Py.Qltb 500 (m_hardness m), hardness_warning);
   (Py.Qltb 1500 (m_solids m), solids_warning);
   (Py.Qltb 8 (m_chloramines m), chloramines_warning);
   (Py.Qltb 500 (m_sulfate m), sulfate_warning);
   (Py.Qltb 1500 (m_conductivity m), conductivity_warning);
   (Py.Qltb 5 (m_organic_carbon m), organic_carbon_warning);
   (Py.Qltb 160 (m_trihalomethanes m), trihalomethanes_warning);
   (Py.Qltb 10 (m_turbidity m), turbidity_warning)].

(** ** The table of the specification, section 4.2

    Written from the specification's table, field by field in the table's
    order, to be compared with what the code computes. *)

Module Table.

Inductive field : Type :=
| pH | Hardness | TDS | Chloramines | Sulfate
| Conductivity | OrganicCarbon | Trihalomethanes | Turbidity.

Definition fields : list field :=
  [pH; Hardness; TDS; Chloramines; Sulfate;
   Conductivity; OrganicCarbon; Trihalomethanes; Turbidity].

Definition weight (f : field) : Q :=
  match f with
  | pH => 0.128 | Hardness => 0.119 | TDS => 0.114
  | Chloramines => 0.108 | Sulfate => 0.142 | Conductivity => 0.102
  | OrganicCarbon => 0.098 | Trihalomethanes => 0.095
  | Turbidity => 0.094
  end%Q.

(** The good threshold. *)
Definition passes (f : field) (x : Q) : bool :=
  match f with
  | pH => Py.Qleb 6.5 x && Py.Qleb x 8.5
  | Hardness => Py.Qltb x 300
  | TDS => Py.Qltb x 500
  | Chloramines => Py.Qltb x 4
  | Sulfate => Py.Qltb x 250
  | Conductivity => Py.Qltb x 400
  | OrganicCarbon => Py.Qltb x 2
  | Trihalomethanes => Py.Qltb x 80
  | Turbidity => Py.Qltb x 5
  end.

(** The warning factor; tiered for TDS. *)
Definition reduced (f : field) (x : Q) : Q :=
  match f with
  | pH => 50 | Hardness => 60
  | TDS => if Py.Qltb x 1000 then 70 else 40
  | Chloramines => 60 | Sulfate => 50 | Conductivity => 70
  | OrganicCarbon => 70 | Trihalomethanes => 50 | Turbidity => 60
  end%Q.

Definition contribution (f : field) (x : Q) : Q :=
  (weight f * (if passes f x then 100 else reduced f x))%Q.


End Table.

(** ** [st.session_state] as a dict: [initialize_session_state]

    The session state is one dict: the key ["history"] holds the list, the
    nine parameter keys hold numbers. *)

Inductive state_value : Type :=
| HistoryList (h : list HistoryEntry)
| Number (q : Q).

Abbreviation raw_state := (gmap string state_value).

(** The [defaults] dict of [initialize_session_state], in its order. *)
Definition defaults : list (string * Q) :=
  [("ph", 7.0%Q); ("hardness", 200.0%Q); ("solids", 400.0%Q);
   ("chloramines", 3.0%Q); ("sulfate", 200.0%Q); ("conductivity", 350.0%Q);
   ("organic_carbon", 1.5%Q); ("trihalomethanes", 60.0%Q);
   ("turbidity", 3.0%Q)].

(** [if param not in st.session_state: st.session_state[param] = value] *)
Definition set_default (s : raw_state) (d : string * Q) : raw_state :=
  match s !! fst d with
  | Some _ => s
  | None => <[fst d := Number (snd d)]> s
  end.

Definition initialize_session_state (s : raw_state) : raw_state :=
  let s' := match s !! "history" with
            | Some _ => s
            | None => <["history" := HistoryList []]> s
            end in
  foldl set_default s' defaults.

(** The nine assignments of the Reset to Defaults button, in its order. *)
Definition reset_values : list (string * Q) :=
  [("ph", 7.0%Q); ("hardness", 200.0%Q); ("solids", 400.0%Q);
   ("chloramines", 3.0%Q); ("sulfate", 200.0%Q); ("conductivity", 350.0%Q);
   ("organic_carbon", 1.5%Q); ("trihalomethanes", 60.0%Q);
   ("turbidity", 3.0%Q)].

Definition reset_button (s : raw_state) : raw_state :=
  foldl (fun s d => <[fst d := Number (snd d)]> s) s reset_values.

(** The session state as the pages read it: the nine numbers and the
    history, when all ten keys hold what the pages expect. *)
Definition number_at (s : raw_state) (k : string) : option Q :=
  match s !! k with
  | Some (Number q) => Some q
  | _ => None
  end.

Definition history_at (s : raw_state) : option (list HistoryEntry) :=
  match s !! "history" with
  | Some (HistoryList h) => Some h
  | _ => None
  end.

Definition view (s : raw_state) : option session_state :=
  match number_at s "ph", number_at s "hardness", number_at s "solids",
        number_at s "chloramines", number_at s "sulfate",
        number_at s "conductivity", number_at s "organic_carbon",
        number_at s "trihalomethanes", number_at s "turbidity",
        history_at s with
  | Some a, Some b, Some c, Some d, Some e, Some f, Some g, Some h, Some i,
    Some l => Some (mkSession (mkMeasurement a b c d e f g h i) l)
  | _, _, _, _, _, _, _, _, _, _ => None
  end.

(** ** [display_results]: the card, the parameter grid, the recommendations

    What is shown is kept as data; the HTML around it is left out.
    [py_str] stands for Python's [str] on a value, which the f-strings
    apply to the numbers. *)

Inductive display_item : Type :=
| ResultCard (safe : bool) (q : quality_label) (c : Q)
| ParameterCell (column : nat) (class param emoji : string)
    (v : Py.value) (u text : string)
| AdviceSafe
| AdviceUnsafe
| IssuesHeader
| IssuesWarning (issues : list string).

Definition parameter_cell (idx : nat) (p : string * ParameterStatus)
  : display_item :=
  let info := snd p in
  let status_emoji :=
    match status info with good => "✅" | warning => "⚠️" end in
  let status_text :=
    match status info with
    | good => "Within safe limits"
    | warning => "Outside optimal range"
    end in
  let status_class :=
    match status info with
    | good => "parameter-good"
    | warning => "parameter-warning"
    end in
  ParameterCell (idx mod 3) status_class (fst p) status_emoji
    (value info) (unit_ info) status_text.

(** [f"**{param}**: {info['value']} {info['unit']}"] for each parameter
    whose status is 'warning'. *)
Definition issues_of (py_str : Py.value -> string)
    (ps : list (string * ParameterStatus)) : list string :=
  omap (fun p =>
          match status (snd p) with
          | warning =>
              Some ("**" +:+ fst p +:+ "**: " +:+ py_str (value (snd p))
                    +:+ " " +:+ unit_ (snd p))
          | good => None
          end) ps.

Definition display_results (py_str : Py.value -> string) (r : ScoreResult)
  : list display_item :=
  [ResultCard (potable r) (quality r) (confidence r)]
  ++ imap parameter_cell (parameters r)
  ++ (if potable r then [AdviceSafe]
      else [AdviceUnsafe; IssuesHeader]
           ++ match issues_of py_str (parameters r) with
              | [] => []
              | issues => [IssuesWarning issues]
              end).

(** ** [display_results]: the report *)

(** ['POTABLE' if result['potable'] else 'NOT POTABLE'] *)
Definition result_text (r : ScoreResult) : string :=
  if potable r then "POTABLE" else "NOT POTABLE".

(** [{k: v['status'] for k, v in result['parameters'].items()}] *)
Definition parameter_status_report (ps : list (string * ParameterStatus))
  : list (string * status_tag) :=
  foldl (fun d p => Py.setitem d (fst p) (status (snd p))) [] ps.

(** ** [history_page] *)

(** A small non-negative [int] as the float of the same value. *)
Definition int_to_float (n : Z) : PrimFloat.float :=
  PrimFloat.of_uint63 (Uint63.of_Z n).

(** [(count / total_tests) * 100]: the true division of two ints, which for
    ints below 2^53 is the float quotient of their float values, then the
    product with 100. *)
Definition percent (count total_tests : Z) : PrimFloat.float :=
  PrimFloat.mul
    (PrimFloat.div (int_to_float count) (int_to_float total_tests))
    (int_to_float 100).

(** The Summary Statistics block: the three counts and the two percentages
    before they are formatted.  The fourth metric, the average confidence,
    is not part of this record. *)
Record summary : Type := mkSummary {
  total_tests : Z;
  potable_count : Z;
  not_potable_count : Z;
  safe_percent : PrimFloat.float;
  unsafe_percent : PrimFloat.float
}.

(** [None] is the early return on an empty history. *)
Definition history_summary (h : list HistoryEntry) : option summary :=
  match h with
  | [] => None
  | _ =>
      let total_tests := Z.of_nat (length h) in
      let potable_count :=
        foldl Z.add 0
          (omap (fun e => if potable (result e) then Some 1 else None) h) in
      let not_potable_count := total_tests - potable_count in
      Some {| total_tests := total_tests;
              potable_count := potable_count;
              not_potable_count := not_potable_count;
              safe_percent := percent potable_count total_tests;
              unsafe_percent := percent not_potable_count total_tests |}
  end.

(** The rows of the Confidence Score Trend chart:
    [enumerate(reversed(history))]. *)
Record trend_row : Type := mkTrendRow {
  tr_test : string;
  tr_confidence : Q;
  tr_status : string
}.

Definition trend_rows (h : list HistoryEntry) : list trend_row :=
  imap (fun i e =>
          {| tr_test := "Test " +:+ pretty (i + 1)%nat;
             tr_confidence := confidence (result e);
             tr_status := if potable (result e) then "Safe" else "Unsafe" |})
       (reverse h).

(** The expanders of Recent Tests: [enumerate(history)]. *)
Record expander : Type := mkExpander {
  ex_title : string;
  ex_expanded : bool;
  ex_entry : HistoryEntry
}.

Definition recent_tests (h : list HistoryEntry) : list expander :=
  imap (fun idx e =>
          {| ex_title := "Test #" +:+ pretty (idx + 1)%nat +:+ " - "
                         +:+ timestamp e;
             ex_expanded := (idx =? 0)%nat;
             ex_entry := e |}) h.

Definition quality_name (q : quality_label) : string :=
  match q with
  | Excellent => "Excellent" | Good => "Good" | Fair => "Fair"
  | Poor => "Poor"
  end.

(** One row of the CSV export: the four columns, then
    [row.update(entry['data'])]. *)
Definition csv_row (e : HistoryEntry) : gmap string Py.value :=
  data e ∪ (<["Timestamp" := Py.Str (timestamp e)]> (
            <["Result" := Py.Str (result_text (result e))]> (
            <["Confidence" := Py.Float (confidence (result e))]> (
            <["Quality" := Py.Str (quality_name (quality (result e)))]> ∅)))).

Definition history_data (h : list HistoryEntry)
  : list (gmap string Py.value) :=
  map csv_row h.

(** ** The validator's messages, in the order it tests *)

Definition all_warnings : list string :=
  [hard_ph_warning; soft_ph_warning; hardness_warning; solids_warning;
   chloramines_warning; sulfate_warning; conductivity_warning;
   organic_carbon_warning; trihalomethanes_warning; turbidity_warning].

(** The names and units of [parameter_status], and the key each value is
    read from, in the order the scorer writes them. *)
Definition parameter_names : list string :=
  ["pH"; "Hardness"; "Sulfate"; "TDS"; "Chloramines"; "Conductivity";
   "Organic Carbon"; "Trihalomethanes"; "Turbidity"].
Definition parameter_units : list string :=
  [""; "mg/L"; "mg/L"; "ppm"; "ppm"; "μS/cm"; "ppm"; "μg/L"; "NTU"].

(** The parameter each validator message is about, by the name the scorer
    gives that parameter. *)
Definition warning_parameter : list (string * string) :=
  [(hard_ph_warning, "pH"); (soft_ph_warning, "pH");
   (hardness_warning, "Hardness"); (solids_warning, "TDS");
   (chloramines_warning, "Chloramines"); (sulfate_warning, "Sulfate");
   (conductivity_warning, "Conductivity");
   (organic_carbon_warning, "Organic Carbon");
   (trihalomethanes_warning, "Trihalomethanes");
   (turbidity_warning, "Turbidity")].

(** Whether every status of a [parameter_status] dict is 'good'. *)
Definition all_good (ps : list (string * ParameterStatus)) : Prop :=
  Forall (fun p => status (snd p) = good) ps.

(** The actions the page offers: every button but the hypothetical caller
    with a dict of its own. *)
Definition page_action (act : action) : Prop :=
  match act with
  | AnalyzeDict _ _ => False
  | _ => True
  end.

(** How many parameters of a [parameter_status] dict are marked
    'warning'. *)
Definition warning_count (ps : list (string * ParameterStatus)) : nat :=
  length (List.filter (fun p => match status (snd p) with
                                | warning => true
                                | good => false
                                end) ps).

(** An entry holds the result the scorer gives for the entry's dict. *)
Definition recorded (e : HistoryEntry) : Prop :=
  fst (predict_water_quality (data e)) = Some (result e).


(** ** The scorer and the validator on IEEE doubles

    The same two functions once more, transcribed with the numbers as
    Python has them: a float is a binary64 value (NaN and the infinities
    included), [+], [*] and [/] round to nearest, and [round(x, 1)] rounds
    the exact value of the double.  The statements about what the
    arithmetic returns bit for bit are made on this transcription. *)

Module IEEE.
Import PrimFloat SpecFloat FloatOps.
#[local] Set Warnings "-inexact-float".

(** The values a field of the [data] dict can hold. *)
Inductive pyvalue : Type :=
| Float (x : float)
| Str (s : string)
| NoneV.

Abbreviation data_dict := (gmap string pyvalue).

(** [a < b], [a <= b] and [a > b]: the IEEE comparison between numbers
    (false when either is NaN), [TypeError] otherwise. *)
Definition lt (a b : pyvalue) : Py.res bool :=
  match a, b with
  | Float x, Float y => Py.Ok (x <? y)%float
  | _, _ => Py.Raise Py.TypeError
  end.
Definition le (a b : pyvalue) : Py.res bool :=
  match a, b with
  | Float x, Float y => Py.Ok (x <=? y)%float
  | _, _ => Py.Raise Py.TypeError
  end.
Definition gt (a b : pyvalue) : Py.res bool := lt b a.

(** An integer as the pair (mantissa, exponent 0) that [SFdiv] divides. *)
Definition SF_of_Z (k : Z) : spec_float :=
  match k with
  | Z0 => S754_zero false
  | Zpos p => S754_finite false p 0
  | Zneg p => S754_finite true p 0
  end.

(** [round(x, 1)] on a float: the exact value of [x] is rounded to the
    nearest tenth, a tie going to the even one, and the result is the
    double nearest to that decimal; a zero result keeps the sign of [x];
    NaN, the infinities and the zeros are returned as they are. *)
Definition round1 (x : float) : float :=
  match Prim2SF x with
  | S754_finite s m e =>
      let q := (inject_Z (if s then Zneg m else Zpos m) * Qpower 2 e)%Q in
      match Py.round_half_even (q * 10) with
      | Z0 => SF2Prim (S754_zero s)
      | k => SF2Prim (SFdiv prec emax (SF_of_Z k) (Prim2SF 10%float))
      end
  | _ => x
  end.

(** One entry of [parameter_status]. *)
Record ParameterStatus : Type := mkStatus {
  status : status_tag;
  value : pyvalue;
  unit_ : string
}.

(** The dict returned by [predict_water_quality]. *)
Record ScoreResult : Type := mkResult {
  potable : bool;
  confidence : float;
  quality : quality_label;
  parameters : list (string * ParameterStatus)
}.

(** Feature importance weights. *)
Definition weights : gmap string float :=
  <["sulfate" := 0.142%float]> (
  <["ph" := 0.128%float]> (
  <["hardness" := 0.119%float]> (
  <["solids" := 0.114%float]> (
  <["chloramines" := 0.108%float]> (
  <["conductivity" := 0.102%float]> (
  <["organic_carbon" := 0.098%float]> (
  <["trihalomethanes" := 0.095%float]> (
  <["turbidity" := 0.094%float]> ∅)))))))).

(** The two locals the threshold checks update. *)
Definition acc : Type := (float * list (string * ParameterStatus))%type.

(** [score += weights[key] * factor] *)
Definition add_score (key : string) (factor : float) (a : acc) : Py.res acc :=
  let* w := Py.getitem weights key in
  Py.Ok ((fst a + w * factor)%float, snd a).

(** [parameter_status[name] = {'status': st, 'value': data[key], 'unit': u}] *)
Definition set_status (data : data_dict) (name : string) (st : status_tag)
    (key u : string) (a : acc) : Py.res acc :=
  let* v := Py.getitem data key in
  Py.Ok (fst a, Py.setitem (snd a) name (mkStatus st v u)).

(** The chained comparison [6.5 <= data['ph'] <= 8.5] reads [data['ph']]
    once and compares it with 8.5 only when the first test holds. *)
Definition check_ph (data : data_dict) (a : acc) : Py.res acc :=
  let* x := Py.getitem data "ph" in
  let* lo := le (Float 6.5) x in
  let* inside := (if lo then le x (Float 8.5) else Py.Ok false) in
  if inside
  then let* a := add_score "ph" 100 a in
       set_status data "pH" good "ph" "" a
  else let* a := add_score "ph" 50 a in
       set_status data "pH" warning "ph" "" a.

Definition check_hardness (data : data_dict) (a : acc) : Py.res acc :=
  let* x := Py.getitem data "hardness" in
  let* c := lt x (Float 300) in
  if c
  then let* a := add_score "hardness" 100 a in
       set_status data "Hardness" good "hardness" "mg/L" a
  else let* a := add_score "hardness" 60 a in
       set_status data "Hardness" warning "hardness" "mg/L" a.

Definition check_sulfate (data : data_dict) (a : acc) : Py.res acc :=
  let* x := Py.getitem data "sulfate" in
  let* c := lt x (Float 250) in
  if c
  then let* a := add_score "sulfate" 100 a in
       set_status data "Sulfate" good "sulfate" "mg/L" a
  else let* a := add_score "sulfate" 50 a in
       set_status data "Sulfate" warning "sulfate" "mg/L" a.

Definition check_solids (data : data_dict) (a : acc) : Py.res acc :=
  let* x := Py.getitem data "solids" in
  let* c := lt x (Float 500) in
  if c
  then let* a := add_score "solids" 100 a in
       set_status data "TDS" good "solids" "ppm" a
  else
    let* x' := Py.getitem data "solids" in
    let* c' := lt x' (Float 1000) in
    if c'
    then let* a := add_score "solids" 70 a in
         set_status data "TDS" warning "solids" "ppm" a
    else let* a := add_score "solids" 40 a in
         set_status data "TDS" warning "solids" "ppm" a.

Definition check_chloramines (data : data_dict) (a : acc) : Py.res acc :=
  let* x := Py.getitem data "chloramines" in
  let* c := lt x (Float 4) in
  if c
  then let* a := add_score "chloramines" 100 a in
       set_status data "Chloramines" good "chloramines" "ppm" a
  else let* a := add_score "chloramines" 60 a in
       set_status data "Chloramines" warning "chloramines" "ppm" a.

Definition check_conductivity (data : data_dict) (a : acc) : Py.res acc :=
  let* x := Py.getitem data "conductivity" in
  let* c := lt x (Float 400) in
  if c
  then let* a := add_score "conductivity" 100 a in
       set_status data "Conductivity" good "conductivity" "μS/cm" a
  else let* a := add_score "conductivity" 70 a in
       set_status data "Conductivity" warning "conductivity" "μS/cm" a.

Definition check_organic_carbon (data : data_dict) (a : acc) : Py.res acc :=
  let* x := Py.getitem data "organic_carbon" in
  let* c := lt x (Float 2) in
  if c
  then let* a := add_score "organic_carbon" 100 a in
       set_status data "Organic Carbon" good "organic_carbon" "ppm" a
  else let* a := add_score "organic_carbon" 70 a in
       set_status data "Organic Carbon" warning "organic_carbon" "ppm" a.

Definition check_trihalomethanes (data : data_dict) (a : acc) : Py.res acc :=
  let* x := Py.getitem data "trihalomethanes" in
  let* c := lt x (Float 80) in
  if c
  then let* a := add_score "trihalomethanes" 100 a in
       set_status data "Trihalomethanes" good "trihalomethanes" "μg/L" a
  else let* a := add_score "trihalomethanes" 50 a in
       set_status data "Trihalomethanes" warning "trihalomethanes" "μg/L" a.

Definition check_turbidity (data : data_dict) (a : acc) : Py.res acc :=
  let* x := Py.getitem data "turbidity" in
  let* c := lt x (Float 5) in
  if c
  then let* a := add_score "turbidity" 100 a in
       set_status data "Turbidity" good "turbidity" "NTU" a
  else let* a := add_score "turbidity" 60 a in
       set_status data "Turbidity" warning "turbidity" "NTU" a.

(** The nine checks in source order, from [score = 0] and
    [parameter_status = {}]. *)
Definition weighted_score (data : data_dict) : Py.res acc :=
  let* a := check_ph data (0%float, []) in
  let* a := check_hardness data a in
  let* a := check_sulfate data a in
  let* a := check_solids data a in
  let* a := check_chloramines data a in
  let* a := check_conductivity data a in
  let* a := check_organic_carbon data a in
  let* a := check_trihalomethanes data a in
  check_turbidity data a.

(** The quality grade of a final score. *)
Definition grade (final_score : float) : quality_label :=
  if (85 <? final_score)%float then Excellent
  else if (70 <? final_score)%float then Good
  else if (50 <? final_score)%float then Fair
  else Poor.

(** The body of the [try] block. *)
Definition predict_water_quality_try (data : data_dict) : Py.res ScoreResult :=
  let* a := weighted_score data in
  let final_score := (fst a / 9)%float in
  let quality := grade final_score in
  Py.Ok {| potable := (70 <? final_score)%float;
           confidence := round1 final_score;
           quality := quality;
           parameters := snd a |}.

(** [predict_water_quality]: [None] with the caught exception, which the
    code reports with [st.error]. *)
Definition predict_water_quality (data : data_dict)
  : option ScoreResult * list Py.exn :=
  match predict_water_quality_try data with
  | Py.Ok r => (Some r, [])
  | Py.Raise e => (None, [e])
  end.

(** [data[key] < lo or data[key] > hi]; the right operand of [or] is
    evaluated only when the left one is false. *)
Definition outside (data : data_dict) (key : string) (lo hi : float)
  : Py.res bool :=
  let* x := Py.getitem data key in
  let* below := lt x (Float lo) in
  if below then Py.Ok true
  else let* y := Py.getitem data key in gt y (Float hi).

(** [if data[key] > limit: warnings.append(msg)] *)
Definition warn_above (data : data_dict) (key : string) (limit : float)
    (msg : string) (warnings : list string) : Py.res (list string) :=
  let* x := Py.getitem data key in
  let* c := gt x (Float limit) in
  Py.Ok (if c then warnings ++ [msg] else warnings).

Definition validate_ph (data : data_dict) (warnings : list string)
  : Py.res (list string) :=
  let* hard := outside data "ph" 4 10 in
  if hard then Py.Ok (warnings ++ [hard_ph_warning])
  else
    let* soft := outside data "ph" 6.5 8.5 in
    Py.Ok (if soft then warnings ++ [soft_ph_warning] else warnings).

Definition validate_input (data : data_dict) : Py.res (list string) :=
  let* w := validate_ph data [] in
  let* w := warn_above data "hardness" 500 hardness_warning w in
  let* w := warn_above data "solids" 1500 solids_warning w in
  let* w := warn_above data "chloramines" 8 chloramines_warning w in
  let* w := warn_above data "sulfate" 500 sulfate_warning w in
  let* w := warn_above data "conductivity" 1500 conductivity_warning w in
  let* w := warn_above data "organic_carbon" 5 organic_carbon_warning w in
  let* w := warn_above data "trihalomethanes" 160 trihalomethanes_warning w in
  warn_above data "turbidity" 10 turbidity_warning w.

(** The nine numbers of the form, as floats. *)
Record Measurement : Type := mkMeasurement {
  m_ph : float;
  m_hardness : float;
  m_solids : float;
  m_chloramines : float;
  m_sulfate : float;
  m_conductivity : float;
  m_organic_carbon : float;
  m_trihalomethanes : float;
  m_turbidity : float
}.

(** The [data] dict the Analyze button builds. *)
Definition prepare_data (m : Measurement) : data_dict :=
  <["ph" := Float (m_ph m)]> (
  <["hardness" := Float (m_hardness m)]> (
  <["solids" := Float (m_solids m)]> (
  <["chloramines" := Float (m_chloramines m)]> (
  <["sulfate" := Float (m_sulfate m)]> (
  <["conductivity" := Float (m_conductivity m)]> (
  <["organic_carbon" := Float (m_organic_carbon m)]> (
  <["trihalomethanes" := Float (m_trihalomethanes m)]> (
  <["turbidity" := Float (m_turbidity m)]> ∅)))))))).

(** *** Closed forms *)

(** What a check leaves in the two locals, given the factor and the tag
    it chose. *)
Definition credited (w factor : float) (name : string) (st : status_tag)
    (x : float) (u : string) (a : acc) : acc :=
  ((fst a + w * factor)%float,
   Py.setitem (snd a) name (mkStatus st (Float x) u)).

(** The ten tests the scorer makes on [m]. *)
Definition tests_of (m : Measurement) : tests :=
  {| t_ph := (6.5 <=? m_ph m)%float && (m_ph m <=? 8.5)%float;
     t_hardness := (m_hardness m <? 300)%float;
     t_sulfate := (m_sulfate m <? 250)%float;
     t_solids := (m_solids m <? 500)%float;
     t_solids' := (m_solids m <? 1000)%float;
     t_chloramines := (m_chloramines m <? 4)%float;
     t_conductivity := (m_conductivity m <? 400)%float;
     t_organic_carbon := (m_organic_carbon m <? 2)%float;
     t_trihalomethanes := (m_trihalomethanes m <? 80)%float;
     t_turbidity := (m_turbidity m <? 5)%float |}.

(** [score] after the nine checks, as a function of the tests: the
    additions in the order the code makes them. *)
Definition score_after (t : tests) : float :=
  (0 + 0.128 * (if t_ph t then 100 else 50)
     + 0.119 * (if t_hardness t then 100 else 60)
     + 0.142 * (if t_sulfate t then 100 else 50)
     + 0.114 * (if t_solids t then 100 else if t_solids' t then 70 else 40)
     + 0.108 * (if t_chloramines t then 100 else 60)
     + 0.102 * (if t_conductivity t then 100 else 70)
     + 0.098 * (if t_organic_carbon t then 100 else 70)
     + 0.095 * (if t_trihalomethanes t then 100 else 50)
     + 0.094 * (if t_turbidity t then 100 else 60))%float.

(** The same nine contributions added in the order of the table of the
    specification, section 4.2. *)
Definition score_in_table_order (t : tests) : float :=
  (0 + 0.128 * (if t_ph t then 100 else 50)
     + 0.119 * (if t_hardness t then 100 else 60)
     + 0.114 * (if t_solids t then 100 else if t_solids' t then 70 else 40)
     + 0.108 * (if t_chloramines t then 100 else 60)
     + 0.142 * (if t_sulfate t then 100 else 50)
     + 0.102 * (if t_conductivity t then 100 else 70)
     + 0.098 * (if t_organic_carbon t then 100 else 70)
     + 0.095 * (if t_trihalomethanes t then 100 else 50)
     + 0.094 * (if t_turbidity t then 100 else 60))%float.

Definition statuses_after (m : Measurement) (t : tests)
  : list (string * ParameterStatus) :=
  [("pH", mkStatus (tag (t_ph t)) (Float (m_ph m)) "");
   ("Hardness", mkStatus (tag (t_hardness t)) (Float (m_hardness m)) "mg/L");
   ("Sulfate", mkStatus (tag (t_sulfate t)) (Float (m_sulfate m)) "mg/L");
   ("TDS", mkStatus (tag (t_solids t)) (Float (m_solids m)) "ppm");
   ("Chloramines",
    mkStatus (tag (t_chloramines t)) (Float (m_chloramines m)) "ppm");
   ("Conductivity",
    mkStatus (tag (t_conductivity t)) (Float (m_conductivity m)) "μS/cm");
   ("Organic Carbon",
    mkStatus (tag (t_organic_carbon t)) (Float (m_organic_carbon m)) "ppm");
   ("Trihalomethanes",
    mkStatus (tag (t_trihalomethanes t)) (Float (m_trihalomethanes m)) "μg/L");
   ("Turbidity", mkStatus (tag (t_turbidity t)) (Float (m_turbidity m)) "NTU")].

Definition result_after (m : Measurement) (t : tests) : ScoreResult :=
  {| potable := (70 <? score_after t / 9)%float;
     confidence := round1 (score_after t / 9);
     quality := grade (score_after t / 9);
     parameters := statuses_after m t |}.

(** The warnings of the validator, as functions of the Measurement. *)
Definition ph_warnings (x : float) : list string :=
  if (x <? 4)%float || (10 <? x)%float then [hard_ph_warning]
  else if (x <? 6.5)%float || (8.5 <? x)%float then [soft_ph_warning]
  else [].

Definition other_flags (m : Measurement) : list (bool * string) :=
  [((500 <? m_hardness m)%float, hardness_warning);
   ((1500 <? m_solids m)%float, solids_warning);
   ((8 <? m_chloramines m)%float, chloramines_warning);
   ((500 <? m_sulfate m)%float, sulfate_warning);
   ((1500 <? m_conductivity m)%float, conductivity_warning);
   ((5 <? m_organic_carbon m)%float, organic_carbon_warning);
   ((160 <? m_trihalomethanes m)%float, trihalomethanes_warning);
   ((10 <? m_turbidity m)%float, turbidity_warning)].

(** *** The table of the specification, section 4.2, in floats

    Weight, good threshold and warning factor of each field as the table
    gives them; [total] adds the nine contributions in the table's order,
    [weight_sum] the nine weights. *)

Definition weight (f : Table.field) : float :=
  match f with
  | Table.pH => 0.128 | Table.Hardness => 0.119 | Table.TDS => 0.114
  | Table.Chloramines => 0.108 | Table.Sulfate => 0.142
  | Table.Conductivity => 0.102 | Table.OrganicCarbon => 0.098
  | Table.Trihalomethanes => 0.095 | Table.Turbidity => 0.094
  end%float.

Definition passes (f : Table.field) (x : float) : bool :=
  match f with
  | Table.pH => (6.5 <=? x)%float && (x <=? 8.5)%float
  | Table.Hardness => (x <? 300)%float
  | Table.TDS => (x <? 500)%float
  | Table.Chloramines => (x <? 4)%float
  | Table.Sulfate => (x <? 250)%float
  | Table.Conductivity => (x <? 400)%float
  | Table.OrganicCarbon => (x <? 2)%float
  | Table.Trihalomethanes => (x <? 80)%float
  | Table.Turbidity => (x <? 5)%float
  end.

Definition reduced (f : Table.field) (x : float) : float :=
  match f with
  | Table.pH => 50 | Table.Hardness => 60
  | Table.TDS => if (x <? 1000)%float then 70 else 40
  | Table.Chloramines => 60 | Table.Sulfate => 50 | Table.Conductivity => 70
  | Table.OrganicCarbon => 70 | Table.Trihalomethanes => 50
  | Table.Turbidity => 60
  end%float.

Definition contribution (f : Table.field) (x : float) : float :=
  (weight f * (if passes f x then 100 else reduced f x))%float.

Definition reading (m : Measurement) (f : Table.field) : float :=
  match f with
  | Table.pH => m_ph m | Table.Hardness => m_hardness m
  | Table.TDS => m_solids m | Table.Chloramines => m_chloramines m
  | Table.Sulfate => m_sulfate m | Table.Conductivity => m_conductivity m
  | Table.OrganicCarbon => m_organic_carbon m
  | Table.Trihalomethanes => m_trihalomethanes m
  | Table.Turbidity => m_turbidity m
  end.

(** The fields in the order the code adds them. *)
Definition source_order : list Table.field :=
  [Table.pH; Table.Hardness; Table.Sulfate; Table.TDS; Table.Chloramines;
   Table.Conductivity; Table.OrganicCarbon; Table.Trihalomethanes;
   Table.Turbidity].

(** The contributions of [m] added from 0, left to right, in a given
    order of the fields. *)
Definition total_in (order : list Table.field) (m : Measurement) : float :=
  foldl (fun s f => (s + contribution f (reading m f))%float) 0%float order.

Definition total (m : Measurement) : float := total_in Table.fields m.

Definition weight_sum : float :=
  foldl (fun s f => (s + weight f)%float) 0%float Table.fields.

Definition field_count : float :=
  of_uint63 (Uint63.of_Z (Z.of_nat (length Table.fields))).

End IEEE.

(** ** The scorer on a Measurement *)

Lemma reads_prepare_data m : reads (prepare_data m) m.
Proof. repeat split. Qed.

Section OnMeasurement.

Variable data : data_dict.
Variable m : Measurement.
Hypothesis R : reads data m.

Ltac from_reads :=
  unfold Py.getitem;
  destruct R as (E1 & E2 & E3 & E4 & E5 & E6 & E7 & E8 & E9);
  first [rewrite E1 | rewrite E2 | rewrite E3 | rewrite E4 | rewrite E5
        | rewrite E6 | rewrite E7 | rewrite E8 | rewrite E9];
  reflexivity.

Lemma data_ph : Py.getitem data "ph" = Py.Ok (Py.Float (m_ph m)).
Proof. from_reads. Qed.
Lemma data_hardness :
  Py.getitem data "hardness" = Py.Ok (Py.Float (m_hardness m)).
Proof. from_reads. Qed.
Lemma data_solids :
  Py.getitem data "solids" = Py.Ok (Py.Float (m_solids m)).
Proof. from_reads. Qed.
Lemma data_chloramines :
  Py.getitem data "chloramines" = Py.Ok (Py.Float (m_chloramines m)).
Proof. from_reads. Qed.
Lemma data_sulfate :
  Py.getitem data "sulfate" = Py.Ok (Py.Float (m_sulfate m)).
Proof. from_reads. Qed.
Lemma data_conductivity :
  Py.getitem data "conductivity" = Py.Ok (Py.Float (m_conductivity m)).
Proof. from_reads. Qed.
Lemma data_organic_carbon :
  Py.getitem data "organic_carbon" = Py.Ok (Py.Float (m_organic_carbon m)).
Proof. from_reads. Qed.
Lemma data_trihalomethanes :
  Py.getitem data "trihalomethanes"
  = Py.Ok (Py.Float (m_trihalomethanes m)).
Proof. from_reads. Qed.
Lemma data_turbidity :
  Py.getitem data "turbidity" = Py.Ok (Py.Float (m_turbidity m)).
Proof. from_reads. Qed.

Ltac run_check lookup c :=
  rewrite !lookup; cbn [Py.bind Py.lt Py.le]; destruct c; reflexivity.

Lemma check_ph_eq a :
  check_ph data a
  = Py.Ok (credited 0.128
             (if Py.Qleb 6.5 (m_ph m) && Py.Qleb (m_ph m) 8.5
              then 100 else 50) "pH"
             (tag (Py.Qleb 6.5 (m_ph m) && Py.Qleb (m_ph m) 8.5)) (m_ph m) "" a).
Proof.
  unfold check_ph, add_score, set_status. rewrite !data_ph. cbn [Py.bind Py.lt Py.le].
  destruct (Py.Qleb 6.5 (m_ph m)); cbn [Py.bind Py.le andb];
    [destruct (Py.Qleb (m_ph m) 8.5) |]; reflexivity.
Qed.

Lemma check_hardness_eq a :
  check_hardness data a
  = Py.Ok (credited 0.119
             (if Py.Qltb (m_hardness m) 300 then 100 else 60) "Hardness"
             (tag (Py.Qltb (m_hardness m) 300)) (m_hardness m) "mg/L" a).
Proof.
  unfold check_hardness, add_score, set_status.
  run_check data_hardness (Py.Qltb (m_hardness m) 300).
Qed.

Lemma check_sulfate_eq a :
  check_sulfate data a
  = Py.Ok (credited 0.142
             (if Py.Qltb (m_sulfate m) 250 then 100 else 50) "Sulfate"
             (tag (Py.Qltb (m_sulfate m) 250)) (m_sulfate m) "mg/L" a).
Proof.
  unfold check_sulfate, add_score, set_status.
  run_check data_sulfate (Py.Qltb (m_sulfate m) 250).
Qed.

Lemma check_solids_eq a :
  check_solids data a
  = Py.Ok (credited 0.114
             (if Py.Qltb (m_solids m) 500 then 100
              else if Py.Qltb (m_solids m) 1000 then 70 else 40) "TDS"
             (tag (Py.Qltb (m_solids m) 500)) (m_solids m) "ppm" a).
Proof.
  unfold check_solids, add_score, set_status. rewrite !data_solids. cbn [Py.bind Py.lt].
  destruct (Py.Qltb (m_solids m) 500); [reflexivity |].
  cbn [Py.bind Py.lt].
  destruct (Py.Qltb (m_solids m) 1000); reflexivity.
Qed.

Lemma check_chloramines_eq a :
  check_chloramines data a
  = Py.Ok (credited 0.108
             (if Py.Qltb (m_chloramines m) 4 then 100 else 60) "Chloramines"
             (tag (Py.Qltb (m_chloramines m) 4)) (m_chloramines m) "ppm" a).
Proof.
  unfold check_chloramines, add_score, set_status.
  run_check data_chloramines (Py.Qltb (m_chloramines m) 4).
Qed.

Lemma check_conductivity_eq a :
  check_conductivity data a
  = Py.Ok (credited 0.102
             (if Py.Qltb (m_conductivity m) 400 then 100 else 70) "Conductivity"
             (tag (Py.Qltb (m_conductivity m) 400)) (m_conductivity m) "μS/cm" a).
Proof.
  unfold check_conductivity, add_score, set_status.
  run_check data_conductivity (Py.Qltb (m_conductivity m) 400).
Qed.

Lemma check_organic_carbon_eq a :
  check_organic_carbon data a
  = Py.Ok (credited 0.098
             (if Py.Qltb (m_organic_carbon m) 2 then 100 else 70) "Organic Carbon"
             (tag (Py.Qltb (m_organic_carbon m) 2)) (m_organic_carbon m) "ppm" a).
Proof.
  unfold check_organic_carbon, add_score, set_status.
  run_check data_organic_carbon (Py.Qltb (m_organic_carbon m) 2).
Qed.

Lemma check_trihalomethanes_eq a :
  check_trihalomethanes data a
  = Py.Ok (credited 0.095
             (if Py.Qltb (m_trihalomethanes m) 80 then 100 else 50) "Trihalomethanes"
             (tag (Py.Qltb (m_trihalomethanes m) 80)) (m_trihalomethanes m) "μg/L" a).
Proof.
  unfold check_trihalomethanes, add_score, set_status.
  run_check data_trihalomethanes (Py.Qltb (m_trihalomethanes m) 80).
Qed.

Lemma check_turbidity_eq a :
  check_turbidity data a
  = Py.Ok (credited 0.094
             (if Py.Qltb (m_turbidity m) 5 then 100 else 60) "Turbidity"
             (tag (Py.Qltb (m_turbidity m) 5)) (m_turbidity m) "NTU" a).
Proof.
  unfold check_turbidity, add_score, set_status.
  run_check data_turbidity (Py.Qltb (m_turbidity m) 5).
Qed.

Lemma weighted_score_eq :
  weighted_score data
  = Py.Ok (score_after (tests_of m), statuses_after m (tests_of m)).
Proof.
  unfold weighted_score.
  rewrite check_ph_eq; cbn [Py.bind].
  rewrite check_hardness_eq; cbn [Py.bind].
  rewrite check_sulfate_eq; cbn [Py.bind].
  rewrite check_solids_eq; cbn [Py.bind].
  rewrite check_chloramines_eq; cbn [Py.bind].
  rewrite check_conductivity_eq; cbn [Py.bind].
  rewrite check_organic_carbon_eq; cbn [Py.bind].
  rewrite check_trihalomethanes_eq; cbn [Py.bind].
  rewrite check_turbidity_eq.
  reflexivity.
Qed.

End OnMeasurement.

(** ** Comparisons and rounding *)

Lemma Qltb_lt x y : Py.Qltb x y = true <-> (x < y)%Q.
Proof.
  unfold Py.Qltb. rewrite Qlt_alt. destruct (x ?= y)%Q; split; congruence.
Qed.

Lemma Qltb_ge x y : Py.Qltb x y = false <-> (y <= x)%Q.
Proof.
  unfold Py.Qltb. destruct (Qcompare_spec x y) as [E | L | G].
  - split; [intros _; rewrite E; apply Qle_refl | reflexivity].
  - split; [discriminate | intros H; exfalso; exact (Qlt_not_le _ _ L H)].
  - split; [intros _; apply Qlt_le_weak, G | reflexivity].
Qed.


(** ** What the scorer returns on a Measurement *)

Lemma predict_water_quality_eq data m :
  reads data m ->
  predict_water_quality data = (Some (result_after m (tests_of m)), []).
Proof.
  intros R. unfold predict_water_quality, predict_water_quality_try.
  rewrite (weighted_score_eq data m R). reflexivity.
Qed.

(** Every combination of test outcomes, checked by evaluation. *)
Lemma score_after_facts (t : tests) :
  (40 <= score_after t)%Q /\ (score_after t <= 100)%Q
  /\ Py.Qltb 70 (score_after t / 9) = false
  /\ grade (score_after t / 9) = Poor
  /\ (0 <= Py.round1 (score_after t / 9))%Q
  /\ (Py.round1 (score_after t / 9) <= 100 / 9)%Q
  /\ Py.round1 (score_after t / 9) <> Py.round1 (score_after t / 1).
Proof.
  destruct t as [[] [] [] [] [] [] [] [] [] []];
    vm_compute; repeat split; discriminate.
Qed.

(** ** A dict that is scored holds a Measurement *)

Lemma bind_Ok {A B} (c : Py.res A) (k : A -> Py.res B) (b : B) :
  Py.bind c k = Py.Ok b -> exists a, c = Py.Ok a /\ k a = Py.Ok b.
Proof. destruct c as [a | e]; cbn; [eauto | discriminate]. Qed.

Ltac float_at data key H :=
  unfold Py.getitem in H;
  destruct (data !! key) as [[q | s |] |];
  cbn [Py.bind Py.lt Py.le] in H; [eauto | discriminate H ..].

Section Inversion.

Variable data : data_dict.
Variables a a' : acc.

Lemma check_ph_float :
  check_ph data a = Py.Ok a' -> exists q, data !! "ph" = Some (Py.Float q).
Proof. intros H. unfold check_ph in H. float_at data "ph" H. Qed.

Lemma check_hardness_float :
  check_hardness data a = Py.Ok a' ->
  exists q, data !! "hardness" = Some (Py.Float q).
Proof. intros H. unfold check_hardness in H. float_at data "hardness" H. Qed.

Lemma check_sulfate_float :
  check_sulfate data a = Py.Ok a' ->
  exists q, data !! "sulfate" = Some (Py.Float q).
Proof. intros H. unfold check_sulfate in H. float_at data "sulfate" H. Qed.

Lemma check_solids_float :
  check_solids data a = Py.Ok a' ->
  exists q, data !! "solids" = Some (Py.Float q).
Proof. intros H. unfold check_solids in H. float_at data "solids" H. Qed.

Lemma check_chloramines_float :
  check_chloramines data a = Py.Ok a' ->
  exists q, data !! "chloramines" = Some (Py.Float q).
Proof.
  intros H. unfold check_chloramines in H. float_at data "chloramines" H.
Qed.

Lemma check_conductivity_float :
  check_conductivity data a = Py.Ok a' ->
  exists q, data !! "conductivity" = Some (Py.Float q).
Proof.
  intros H. unfold check_conductivity in H. float_at data "conductivity" H.
Qed.

Lemma check_organic_carbon_float :
  check_organic_carbon data a = Py.Ok a' ->
  exists q, data !! "organic_carbon" = Some (Py.Float q).
Proof.
  intros H. unfold check_organic_carbon in H.
  float_at data "organic_carbon" H.
Qed.

Lemma check_trihalomethanes_float :
  check_trihalomethanes data a = Py.Ok a' ->
  exists q, data !! "trihalomethanes" = Some (Py.Float q).
Proof.
  intros H. unfold check_trihalomethanes in H.
  float_at data "trihalomethanes" H.
Qed.

Lemma check_turbidity_float :
  check_turbidity data a = Py.Ok a' ->
  exists q, data !! "turbidity" = Some (Py.Float q).
Proof. intros H. unfold check_turbidity in H. float_at data "turbidity" H. Qed.

End Inversion.

Lemma weighted_score_reads data a :
  weighted_score data = Py.Ok a -> exists m, reads data m.
Proof.
  unfold weighted_score. intros H.
  apply bind_Ok in H as (a1 & H1 & H). apply check_ph_float in H1 as [q1 E1].
  apply bind_Ok in H as (a2 & H2 & H).
  apply check_hardness_float in H2 as [q2 E2].
  apply bind_Ok in H as (a3 & H3 & H).
  apply check_sulfate_float in H3 as [q3 E3].
  apply bind_Ok in H as (a4 & H4 & H).
  apply check_solids_float in H4 as [q4 E4].
  apply bind_Ok in H as (a5 & H5 & H).
  apply check_chloramines_float in H5 as [q5 E5].
  apply bind_Ok in H as (a6 & H6 & H).
  apply check_conductivity_float in H6 as [q6 E6].
  apply bind_Ok in H as (a7 & H7 & H).
  apply check_organic_carbon_float in H7 as [q7 E7].
  apply bind_Ok in H as (a8 & H8 & H).
  apply check_trihalomethanes_float in H8 as [q8 E8].
  apply check_turbidity_float in H as [q9 E9].
  exists (mkMeasurement q1 q2 q4 q5 q3 q6 q7 q8 q9).
  unfold reads; cbn. repeat split; assumption.
Qed.

(** A result, when there is one, is the result of a Measurement. *)
Lemma scored_is_measurement data r :
  fst (predict_water_quality data) = Some r ->
  exists m, reads data m /\ r = result_after m (tests_of m).
Proof.
  intros H.
  assert (exists m, reads data m) as [m Rm].
  { unfold predict_water_quality, predict_water_quality_try in H.
    destruct (weighted_score data) as [a | e] eqn:W; [| discriminate H].
    exact (weighted_score_reads data a W). }
  exists m. split; [exact Rm |].
  rewrite (predict_water_quality_eq data m Rm) in H. cbn in H. congruence.
Qed.


(** ** The scorer's claims *)

(** C2: what the code returns on the safe water example: nine statuses
    "good", but confidence 11.1, quality Poor and potable false. *)
Theorem safe_example_scored :
  predict_water_quality (prepare_data safe_example)
  = (Some {| potable := false;
             confidence := 11.1;
             quality := Poor;
             parameters :=
               [("pH", mkStatus good (Py.Float 7.2) "");
                ("Hardness", mkStatus good (Py.Float 180) "mg/L");
                ("Sulfate", mkStatus good (Py.Float 180) "mg/L");
                ("TDS", mkStatus good (Py.Float 350) "ppm");
                ("Chloramines", mkStatus good (Py.Float 2.5) "ppm");
                ("Conductivity", mkStatus good (Py.Float 320) "μS/cm");
                ("Organic Carbon", mkStatus good (Py.Float 1.2) "ppm");
                ("Trihalomethanes", mkStatus good (Py.Float 45) "μg/L");
                ("Turbidity", mkStatus good (Py.Float 2.8) "NTU")] |},
     []).
Proof. vm_compute. reflexivity. Qed.






(** C6: the TDS check has three tiers: below 500 it adds weight * 100 and
    marks "good"; from 500 and below 1000 it adds weight * 70 and marks
    "warning"; from 1000 on it adds weight * 40 and marks "warning".  The
    result's TDS status is "good" in the first tier only. *)
Theorem tds_three_tiers (m : Measurement) (a : acc) :
  weights !! "solids" = Some 0.114%Q
  /\ ((m_solids m < 500)%Q ->
     check_solids (prepare_data m) a
     = Py.Ok ((fst a + 0.114 * 100)%Q,
              Py.setitem (snd a) "TDS"
                (mkStatus good (Py.Float (m_solids m)) "ppm")))
  /\ ((500 <= m_solids m)%Q /\ (m_solids m < 1000)%Q ->
     check_solids (prepare_data m) a
     = Py.Ok ((fst a + 0.114 * 70)%Q,
              Py.setitem (snd a) "TDS"
                (mkStatus warning (Py.Float (m_solids m)) "ppm")))
  /\ ((1000 <= m_solids m)%Q ->
     check_solids (prepare_data m) a
     = Py.Ok ((fst a + 0.114 * 40)%Q,
              Py.setitem (snd a) "TDS"
                (mkStatus warning (Py.Float (m_solids m)) "ppm")))
  /\ exists r,
       predict_water_quality (prepare_data m) = (Some r, [])
       /\ ((m_solids m < 500)%Q ->
           option_map status (Py.get (parameters r) "TDS") = Some good)
       /\ ((500 <= m_solids m)%Q ->
           option_map status (Py.get (parameters r) "TDS") = Some warning).
Proof.
  rewrite (check_solids_eq _ m (reads_prepare_data m)).
  split; [reflexivity |]. repeat split.
  - intros H. apply Qltb_lt in H. rewrite H. reflexivity.
  - intros [H1 H2]. apply Qltb_ge in H1. apply Qltb_lt in H2.
    rewrite H1, H2. reflexivity.
  - intros H.
    assert (H' : (500 <= m_solids m)%Q) by lra.
    apply Qltb_ge in H, H'. rewrite H, H'. reflexivity.
  - exists (result_after m (tests_of m)).
    split; [apply predict_water_quality_eq, reads_prepare_data |].
    cbn. split; intros H; [apply Qltb_lt in H | apply Qltb_ge in H];
      rewrite H; reflexivity.
Qed.

Lemma tds_three_tiers_witness :
  check_solids (prepare_data safe_example) (0%Q, [])
  = Py.Ok ((0 + 0.114 * 100)%Q,
           [("TDS", mkStatus good (Py.Float 350) "ppm")])
  /\ check_solids (prepare_data (mkMeasurement 7 200 750 3 200 350 1.5 60 3))
       (0%Q, [])
     = Py.Ok ((0 + 0.114 * 70)%Q,
              [("TDS", mkStatus warning (Py.Float 750) "ppm")])
  /\ check_solids (prepare_data unsafe_example) (0%Q, [])
     = Py.Ok ((0 + 0.114 * 40)%Q,
              [("TDS", mkStatus warning (Py.Float 1200) "ppm")]).
Proof.
  split; [| split].
  - apply (proj2 (tds_three_tiers safe_example (0%Q, []))).
    vm_compute; reflexivity.
  - apply (proj2 (tds_three_tiers
                    (mkMeasurement 7 200 750 3 200 350 1.5 60 3) (0%Q, []))).
    split; vm_compute; [discriminate | reflexivity].
  - apply (proj2 (tds_three_tiers unsafe_example (0%Q, []))).
    vm_compute; discriminate.
Defined.

(** ** The history ledger *)

Lemma history_append_take entry h :
  history_append entry h = take 50 (entry :: h).
Proof.
  unfold history_append.
  destruct (50 <? length (entry :: h))%nat eqn:E; [reflexivity |].
  apply Nat.ltb_ge in E. symmetry. apply take_ge. exact E.
Qed.

Lemma history_append_capped entry h :
  (length (history_append entry h) <= 50)%nat.
Proof. rewrite history_append_take, length_take. lia. Qed.

Lemma step_capped s act :
  (length (history s) <= 50)%nat -> (length (history (step s act)) <= 50)%nat.
Proof.
  intros H. destruct act as [m | now | now data |]; cbn [step]; try exact H.
  - unfold analyze_button, analyze.
    destruct (validate_input _); [| exact H].
    destruct (predict_water_quality _) as [[r |] ev]; cbn; [| exact H].
    apply history_append_capped.
  - unfold analyze.
    destruct (validate_input _); [| exact H].
    destruct (predict_water_quality _) as [[r |] ev]; cbn; [| exact H].
    apply history_append_capped.
  - cbn. lia.
Qed.

(** C7: an append puts the entry at the head and keeps the 50 most recent;
    after any sequence of appends and clears, on the ledger alone or
    through the page's buttons from a fresh session, the history holds at
    most 50 entries; a clear leaves it empty. *)
Theorem history_never_exceeds_50 :
  (forall entry h, history_append entry h = take 50 (entry :: h))
  /\ (forall entry h, (length (history_append entry h) <= 50)%nat)
  /\ (forall ops, (length (foldl ledger_step [] ops) <= 50)%nat)
  /\ (forall acts, (length (history (run initial_session acts)) <= 50)%nat)
  /\ (forall h, history_clear h = [])
  /\ (forall s, history (clear_button s) = []).
Proof.
  split; [exact history_append_take |].
  split; [exact history_append_capped |].
  split.
  { intros ops.
    assert (G : forall h, (length h <= 50)%nat ->
                          (length (foldl ledger_step h ops) <= 50)%nat).
    { induction ops as [| op ops IH]; intros h Hh; cbn [foldl]; [exact Hh |].
      apply IH. destruct op; cbn [ledger_step history_clear length];
        [apply history_append_capped | lia]. }
    apply G. cbn. lia. }
  split.
  { intros acts. unfold run.
    assert (G : forall s, (length (history s) <= 50)%nat ->
                          (length (history (foldl step s acts)) <= 50)%nat).
    { induction acts as [| act acts IH]; intros s Hs; cbn [foldl]; [exact Hs |].
      apply IH, step_capped, Hs. }
    apply G. cbn. lia. }
  split; reflexivity.
Qed.

(** ** A failed scoring *)

Lemma results_shown_warnings warnings :
  omap (fun ev => match ev with
                  | DisplayResults r _ => Some r
                  | _ => None
                  end) (show_warnings warnings) = [].
Proof.
  unfold show_warnings. destruct warnings as [| w ws]; [reflexivity |].
  cbn [omap list_omap]. generalize (w :: ws). intros l.
  rewrite omap_app. cbn.
  induction l as [| x l IH]; [reflexivity | exact IH].
Qed.

Lemma predict_water_quality_none data :
  fst (predict_water_quality data) = None ->
  exists e, predict_water_quality data = (None, [StError e]).
Proof.
  unfold predict_water_quality.
  destruct (predict_water_quality_try data) as [r | e]; cbn;
    [discriminate | eauto].
Qed.

(** C8: a dict with a field missing or not a number is not scored; and
    when scoring yields no result the error is reported, nothing is
    displayed as a result, and the run leaves the session state, hence the
    history, as it found it. *)
Theorem failed_scoring_records_nothing (data : data_dict) :
  ((exists key, key ∈ required_keys
                /\ forall q, data !! key <> Some (Py.Float q)) ->
   fst (predict_water_quality data) = None)
  /\ (fst (predict_water_quality data) = None ->
      (exists e, predict_water_quality data = (None, [StError e]))
      /\ forall now s,
           final (analyze now data s) = s
           /\ history (final (analyze now data s)) = history s
           /\ results_shown (analyze now data s) = []
           /\ (uncaught (analyze now data s) <> None
               \/ exists e, StError e ∈ shown (analyze now data s))).
Proof.
  split.
  - intros (key & Hin & Hkey).
    destruct (fst (predict_water_quality data)) as [r |] eqn:E;
      [exfalso | reflexivity].
    apply scored_is_measurement in E as (m & Rm & _).
    destruct Rm as (E1 & E2 & E3 & E4 & E5 & E6 & E7 & E8 & E9).
    unfold required_keys in Hin.
    repeat (apply elem_of_cons in Hin as [-> | Hin];
            [eapply Hkey; eassumption |]).
    apply elem_of_nil in Hin. exact Hin.
  - intros H. split; [apply predict_water_quality_none, H |].
    intros now s. unfold results_shown, analyze.
    destruct (validate_input data) as [warnings | e0].
    + destruct (predict_water_quality_none data H) as [e ->].
      cbn [final shown uncaught]. repeat split.
      * rewrite omap_app, results_shown_warnings. reflexivity.
      * right. exists e. apply elem_of_app. right.
        apply list_elem_of_singleton. reflexivity.
    + cbn [final shown uncaught]. repeat split. left. discriminate.
Qed.

Lemma failed_scoring_records_nothing_witness :
  fst (predict_water_quality (delete "ph" (prepare_data safe_example))) = None
  /\ final (analyze "2024-01-01 00:00:00"
              (delete "ph" (prepare_data safe_example)) initial_session)
     = initial_session
  /\ fst (predict_water_quality
            (<["solids" := Py.Str "n/a"]> (prepare_data safe_example))) = None.
Proof.
  split; [vm_compute; reflexivity |].
  split.
  - apply (proj2 (failed_scoring_records_nothing
                    (delete "ph" (prepare_data safe_example)))).
    vm_compute; reflexivity.
  - apply (proj1 (failed_scoring_records_nothing
                    (<["solids" := Py.Str "n/a"]> (prepare_data safe_example)))).
    exists "solids". split; [| intros q; vm_compute; discriminate].
    unfold required_keys. repeat (first [left | right]).
Defined.

(** ** The validator on a Measurement *)

Lemma outside_eq data key lo hi x :
  data !! key = Some (Py.Float x) ->
  outside data key lo hi = Py.Ok (Py.Qltb x lo || Py.Qltb hi x).
Proof.
  intros E. unfold outside, Py.getitem. rewrite E.
  cbn [Py.bind Py.lt Py.gt]. destruct (Py.Qltb x lo); reflexivity.
Qed.

Lemma warn_above_eq data key limit msg w x :
  data !! key = Some (Py.Float x) ->
  warn_above data key limit msg w
  = Py.Ok (w ++ flagged [(Py.Qltb limit x, msg)]).
Proof.
  intros E. unfold warn_above, Py.getitem. rewrite E.
  cbn [Py.bind Py.lt Py.gt flagged].
  destruct (Py.Qltb limit x); cbn [app]; [| rewrite app_nil_r]; reflexivity.
Qed.

Lemma validate_ph_eq data w x :
  data !! "ph" = Some (Py.Float x) ->
  validate_ph data w = Py.Ok (w ++ ph_warnings x).
Proof.
  intros E. unfold validate_ph, ph_warnings.
  rewrite !(outside_eq data "ph" _ _ x E). cbn [Py.bind].
  destruct (Py.Qltb x 4 || Py.Qltb 10 x); [reflexivity |].
  destruct (Py.Qltb x 6.5 || Py.Qltb 8.5 x); [| rewrite app_nil_r];
    reflexivity.
Qed.

Lemma validate_input_eq data m :
  reads data m ->
  validate_input data
  = Py.Ok (ph_warnings (m_ph m) ++ flagged (other_flags m)).
Proof.
  intros (E1 & E2 & E3 & E4 & E5 & E6 & E7 & E8 & E9).
  unfold validate_input.
  rewrite (validate_ph_eq _ _ _ E1); cbn [Py.bind].
  rewrite (warn_above_eq _ _ _ _ _ _ E2); cbn [Py.bind].
  rewrite (warn_above_eq _ _ _ _ _ _ E3); cbn [Py.bind].
  rewrite (warn_above_eq _ _ _ _ _ _ E4); cbn [Py.bind].
  rewrite (warn_above_eq _ _ _ _ _ _ E5); cbn [Py.bind].
  rewrite (warn_above_eq _ _ _ _ _ _ E6); cbn [Py.bind].
  rewrite (warn_above_eq _ _ _ _ _ _ E7); cbn [Py.bind].
  rewrite (warn_above_eq _ _ _ _ _ _ E8); cbn [Py.bind].
  rewrite (warn_above_eq _ _ _ _ _ _ E9).
  unfold other_flags. cbn [flagged].
  rewrite !app_nil_r, <- !app_assoc. reflexivity.
Qed.

Lemma flagged_elem x l : x ∈ flagged l -> x ∈ map snd l.
Proof.
  induction l as [| [c msg] l IH]; cbn [flagged map snd]; [tauto |].
  intros H. apply elem_of_app in H as [H | H].
  - destruct c; [| apply elem_of_nil in H; tauto].
    apply list_elem_of_singleton in H as ->. left.
  - right. exact (IH H).
Qed.

Lemma ph_warning_not_flagged x m :
  x = hard_ph_warning \/ x = soft_ph_warning -> x ∉ flagged (other_flags m).
Proof.
  intros Hx H. apply flagged_elem in H.
  unfold other_flags in H. cbn [map snd] in H.
  repeat (apply elem_of_cons in H as [H | H];
          [destruct Hx as [-> | ->]; discriminate H |]).
  apply elem_of_nil in H. exact H.
Qed.

(** C9: on a Measurement the validator returns a list of warnings, never
    an exception, and never both pH warnings; when the pH is below 4 or
    above 10 the list begins with the hard warning and holds neither a
    second one nor the soft one. *)
Theorem hard_ph_warning_excludes_soft (m : Measurement) :
  (exists w, validate_input (prepare_data m) = Py.Ok w
             /\ ~ (hard_ph_warning ∈ w /\ soft_ph_warning ∈ w))
  /\ ((m_ph m < 4)%Q \/ (10 < m_ph m)%Q ->
      exists rest,
        validate_input (prepare_data m) = Py.Ok (hard_ph_warning :: rest)
        /\ (hard_ph_warning ∉ rest)
        /\ (soft_ph_warning ∉ rest)).
Proof.
  rewrite (validate_input_eq _ m (reads_prepare_data m)).
  pose proof (ph_warning_not_flagged hard_ph_warning m (or_introl eq_refl))
    as Hh.
  pose proof (ph_warning_not_flagged soft_ph_warning m (or_intror eq_refl))
    as Hs.
  split.
  - eexists. split; [reflexivity |]. intros [H1 H2].
    apply elem_of_app in H1 as [H1 | H1]; [| exact (Hh H1)].
    apply elem_of_app in H2 as [H2 | H2]; [| exact (Hs H2)].
    unfold ph_warnings in H1, H2.
    destruct (Py.Qltb (m_ph m) 4 || Py.Qltb 10 (m_ph m)).
    + apply list_elem_of_singleton in H2. discriminate H2.
    + destruct (Py.Qltb (m_ph m) 6.5 || Py.Qltb 8.5 (m_ph m)).
      * apply list_elem_of_singleton in H1. discriminate H1.
      * apply elem_of_nil in H1. exact H1.
  - intros H. exists (flagged (other_flags m)).
    split; [| split; assumption].
    unfold ph_warnings.
    assert (E : (Py.Qltb (m_ph m) 4 || Py.Qltb 10 (m_ph m)) = true).
    { apply orb_true_iff. destruct H as [H | H]; [left | right];
        apply Qltb_lt, H. }
    rewrite E. reflexivity.
Qed.

Lemma hard_ph_warning_excludes_soft_witness :
  (3 < 4)%Q
  /\ exists rest,
       validate_input
         (prepare_data (mkMeasurement 3 180 350 2.5 180 320 1.2 45 2.8))
       = Py.Ok (hard_ph_warning :: rest)
       /\ (hard_ph_warning ∉ rest)
       /\ (soft_ph_warning ∉ rest).
Proof.
  split; [reflexivity |].
  apply (proj2 (hard_ph_warning_excludes_soft
                  (mkMeasurement 3 180 350 2.5 180 320 1.2 45 2.8))).
  left. reflexivity.
Defined.

(** ** Further properties: which dicts are scored *)

Ltac number_at data key H :=
  unfold Py.getitem in H;
  destruct (data !! key) as [[q | s |] |];
  cbn [Py.bind Py.lt Py.le Py.gt] in H; [eauto | discriminate H ..].

Lemma warn_above_float data key limit msg w w' :
  warn_above data key limit msg w = Py.Ok w' ->
  exists q, data !! key = Some (Py.Float q).
Proof. intros H. unfold warn_above in H. number_at data key H. Qed.

Lemma validate_ph_float data w w' :
  validate_ph data w = Py.Ok w' -> exists q, data !! "ph" = Some (Py.Float q).
Proof. intros H. unfold validate_ph, outside in H. number_at data "ph" H. Qed.

Lemma validate_input_reads data w :
  validate_input data = Py.Ok w -> exists m, reads data m.
Proof.
  unfold validate_input. intros H.
  apply bind_Ok in H as (w1 & H1 & H). apply validate_ph_float in H1 as [q1 E1].
  apply bind_Ok in H as (w2 & H2 & H). apply warn_above_float in H2 as [q2 E2].
  apply bind_Ok in H as (w3 & H3 & H). apply warn_above_float in H3 as [q3 E3].
  apply bind_Ok in H as (w4 & H4 & H). apply warn_above_float in H4 as [q4 E4].
  apply bind_Ok in H as (w5 & H5 & H). apply warn_above_float in H5 as [q5 E5].
  apply bind_Ok in H as (w6 & H6 & H). apply warn_above_float in H6 as [q6 E6].
  apply bind_Ok in H as (w7 & H7 & H). apply warn_above_float in H7 as [q7 E7].
  apply bind_Ok in H as (w8 & H8 & H). apply warn_above_float in H8 as [q8 E8].
  apply warn_above_float in H as [q9 E9].
  exists (mkMeasurement q1 q2 q3 q4 q5 q6 q7 q8 q9).
  unfold reads; cbn. repeat split; assumption.
Qed.

(** X1: the validator and the scorer accept the same dicts: each returns
    normally exactly when the nine keys hold numbers. *)
Theorem validator_and_scorer_accept_the_same_dicts (data : data_dict) :
  ((exists w, validate_input data = Py.Ok w) <-> (exists m, reads data m))
  /\ ((exists r, fst (predict_water_quality data) = Some r)
      <-> (exists m, reads data m)).
Proof.
  split; split.
  - intros [w H]. exact (validate_input_reads data w H).
  - intros [m Rm]. eexists. apply (validate_input_eq data m Rm).
  - intros [r H]. apply scored_is_measurement in H as (m & Rm & _). eauto.
  - intros [m Rm]. eexists.
    rewrite (predict_water_quality_eq data m Rm). reflexivity.
Qed.

Lemma analyze_ok now data s w :
  validate_input data = Py.Ok w ->
  exists r,
    predict_water_quality data = (Some r, [])
    /\ analyze now data s
       = mkOutcome
           (mkSession (inputs s)
              (mkEntry now r data :: take 49 (history s)))
           (show_warnings w ++ [DisplayResults r data]) None.
Proof.
  intros V. destruct (validate_input_reads data w V) as [m Rm].
  eexists. split; [apply (predict_water_quality_eq data m Rm) |].
  unfold analyze. rewrite V, (predict_water_quality_eq data m Rm).
  rewrite history_append_take. reflexivity.
Qed.

Lemma analyze_button_ok (s : session_state) :
  exists w, validate_input (prepare_data (inputs s)) = Py.Ok w.
Proof.
  eexists. apply validate_input_eq, reads_prepare_data.
Qed.

Lemma show_warnings_no_error w e : StError e ∉ show_warnings w.
Proof.
  intros H. unfold show_warnings in H. destruct w as [| x w]; [inversion H |].
  apply elem_of_cons in H as [H | H]; [discriminate H |].
  apply elem_of_app in H as [H | H].
  - apply list_elem_of_fmap in H as (y & Hy & _). discriminate Hy.
  - apply list_elem_of_singleton in H. discriminate H.
Qed.

(** X2: one run of the Analyze branch on any dict either stops on the
    validator's exception, showing nothing and changing nothing, or puts
    exactly one entry (this run's time, result and dict) at the head of the
    history, keeps the 49 newest older entries and displays that result.
    The scorer's own error report is never shown. *)
Theorem analyze_records_or_stops (now : string) (data : data_dict)
    (s : session_state) :
  ((exists e, validate_input data = Py.Raise e
              /\ analyze now data s = mkOutcome s [] (Some e))
   \/ (exists r, predict_water_quality data = (Some r, [])
                 /\ uncaught (analyze now data s) = None
                 /\ inputs (final (analyze now data s)) = inputs s
                 /\ history (final (analyze now data s))
                    = mkEntry now r data :: take 49 (history s)
                 /\ results_shown (analyze now data s) = [r]))
  /\ forall e, StError e ∉ shown (analyze now data s).
Proof.
  destruct (validate_input data) as [w | e0] eqn:V.
  - destruct (analyze_ok now data s w V) as (r & P & A).
    unfold results_shown. rewrite A. cbn [final shown uncaught inputs history].
    split.
    + right. exists r. repeat split; [exact P |].
      rewrite omap_app, results_shown_warnings. reflexivity.
    + intros e H. apply elem_of_app in H as [H | H].
      * exact (show_warnings_no_error w e H).
      * apply list_elem_of_singleton in H. discriminate H.
  - assert (A : analyze now data s = mkOutcome s [] (Some e0))
      by (unfold analyze; rewrite V; reflexivity).
    split; [left; eauto |]. intros e H. rewrite A in H. inversion H.
Qed.

(** X3: the Analyze button never stops on an exception: whatever the
    session state, it scores the form's nine numbers, records the entry at
    the head of the history and leaves the form as it was. *)
Theorem analyze_button_always_records (now : string) (s : session_state) :
  exists r,
    predict_water_quality (prepare_data (inputs s)) = (Some r, [])
    /\ uncaught (analyze_button now s) = None
    /\ inputs (final (analyze_button now s)) = inputs s
    /\ history (final (analyze_button now s))
       = mkEntry now r (prepare_data (inputs s)) :: take 49 (history s)
    /\ results_shown (analyze_button now s) = [r].
Proof.
  destruct (analyze_button_ok s) as [w V].
  destruct (analyze_ok now _ s w V) as (r & P & A).
  exists r. unfold analyze_button, results_shown. rewrite A.
  cbn [final shown uncaught inputs history]. repeat split; [exact P |].
  rewrite omap_app, results_shown_warnings. reflexivity.
Qed.

(** X4: the scorer and the validator read the nine keys and nothing else:
    two dicts that agree on them get the same result, the same error
    report and the same warnings. *)
Theorem only_the_nine_keys_are_read (data data' : data_dict) :
  (forall k, k ∈ required_keys -> data !! k = data' !! k) ->
  predict_water_quality data = predict_water_quality data'
  /\ validate_input data = validate_input data'.
Proof.
  intros H.
  assert (E1 : data !! "ph" = data' !! "ph")
    by (apply H; unfold required_keys; set_solver).
  assert (E2 : data !! "hardness" = data' !! "hardness")
    by (apply H; unfold required_keys; set_solver).
  assert (E3 : data !! "sulfate" = data' !! "sulfate")
    by (apply H; unfold required_keys; set_solver).
  assert (E4 : data !! "solids" = data' !! "solids")
    by (apply H; unfold required_keys; set_solver).
  assert (E5 : data !! "chloramines" = data' !! "chloramines")
    by (apply H; unfold required_keys; set_solver).
  assert (E6 : data !! "conductivity" = data' !! "conductivity")
    by (apply H; unfold required_keys; set_solver).
  assert (E7 : data !! "organic_carbon" = data' !! "organic_carbon")
    by (apply H; unfold required_keys; set_solver).
  assert (E8 : data !! "trihalomethanes" = data' !! "trihalomethanes")
    by (apply H; unfold required_keys; set_solver).
  assert (E9 : data !! "turbidity" = data' !! "turbidity")
    by (apply H; unfold required_keys; set_solver).
  split.
  - unfold predict_water_quality, predict_water_quality_try, weighted_score,
      check_ph, check_hardness, check_sulfate, check_solids,
      check_chloramines, check_conductivity, check_organic_carbon,
      check_trihalomethanes, check_turbidity, set_status, Py.getitem.
    rewrite E1, E2, E3, E4, E5, E6, E7, E8, E9. reflexivity.
  - unfold validate_input, validate_ph, outside, warn_above, Py.getitem.
    rewrite E1, E2, E3, E4, E5, E6, E7, E8, E9. reflexivity.
Qed.

Lemma only_the_nine_keys_are_read_witness :
  predict_water_quality (<["note" := Py.Str "well 3"]> (prepare_data safe_example))
  = predict_water_quality (prepare_data safe_example)
  /\ validate_input (<["note" := Py.Str "well 3"]> (prepare_data safe_example))
     = validate_input (prepare_data safe_example).
Proof.
  apply only_the_nine_keys_are_read.
  intros k Hk. apply lookup_insert_ne. intros <-.
  unfold required_keys in Hk.
  repeat (apply elem_of_cons in Hk as [Hk | Hk]; [discriminate Hk |]).
  apply elem_of_nil in Hk. exact Hk.
Defined.

(** ** Further properties: the validator's warnings *)

Lemma flagged_nil l : flagged l = [] <-> Forall (fun p => fst p = false) l.
Proof.
  induction l as [| [c msg] l IH]; cbn [flagged].
  - split; [constructor | reflexivity].
  - rewrite Forall_cons. cbn [fst]. destruct c; cbn [app].
    + split; [discriminate | intros [H _]; discriminate H].
    + rewrite IH. tauto.
Qed.

Lemma flagged_sublist l : flagged l `sublist_of` map snd l.
Proof.
  induction l as [| [c msg] l IH]; cbn [flagged map snd]; [constructor |].
  destruct c; cbn [app]; [apply sublist_skip | apply sublist_cons]; exact IH.
Qed.

Lemma flagged_true l c msg :
  NoDup (map snd l) -> (c, msg) ∈ l -> msg ∈ flagged l -> c = true.
Proof.
  induction l as [| [c' msg'] l IH]; cbn [flagged map snd];
    intros N Hin Hm; [inversion Hin |].
  apply NoDup_cons in N as [Nh Nt].
  apply elem_of_cons in Hin as [Hin | Hin].
  - injection Hin as -> ->. destruct c'; [reflexivity |].
    cbn [app] in Hm. apply flagged_elem in Hm. contradiction.
  - apply elem_of_app in Hm as [Hm | Hm]; [| exact (IH Nt Hin Hm)].
    destruct c'; [| inversion Hm].
    apply list_elem_of_singleton in Hm as ->.
    exfalso. apply Nh. apply list_elem_of_fmap. exists (c, msg'). auto.
Qed.

Lemma all_warnings_NoDup : NoDup all_warnings.
Proof. apply (bool_decide_unpack _). vm_compute. exact I. Qed.

Lemma all_warnings_split m :
  all_warnings
  = [hard_ph_warning; soft_ph_warning] ++ map snd (other_flags m).
Proof. reflexivity. Qed.

Lemma ph_warnings_sublist x :
  ph_warnings x `sublist_of` [hard_ph_warning; soft_ph_warning].
Proof.
  unfold ph_warnings.
  destruct (Py.Qltb x 4 || Py.Qltb 10 x);
    [| destruct (Py.Qltb x 6.5 || Py.Qltb 8.5 x)];
    repeat first [apply sublist_nil | apply sublist_skip | apply sublist_cons].
Qed.

(** X6: the validator's warnings come in the order it tests the
    parameters, each at most once: on a Measurement the list is a sublist
    of the ten messages in source order, has no duplicate and at most nine
    elements. *)
Theorem warnings_in_source_order (m : Measurement) :
  exists w,
    validate_input (prepare_data m) = Py.Ok w
    /\ w `sublist_of` all_warnings
    /\ NoDup w
    /\ (length w <= 9)%nat.
Proof.
  eexists. split; [apply validate_input_eq, reads_prepare_data |].
  assert (S : ph_warnings (m_ph m) ++ flagged (other_flags m)
              `sublist_of` all_warnings).
  { rewrite (all_warnings_split m).
    apply sublist_app; [apply ph_warnings_sublist | apply flagged_sublist]. }
  split; [exact S |].
  split; [exact (sublist_NoDup _ _ all_warnings_NoDup S) |].
  rewrite length_app.
  assert (L : (length (flagged (other_flags m)) <= 8)%nat)
    by exact (sublist_length _ _ (flagged_sublist (other_flags m))).
  assert (length (ph_warnings (m_ph m)) <= 1)%nat.
  { unfold ph_warnings.
    destruct (_ || _); [cbn; lia |]. destruct (_ || _); cbn; lia. }
  lia.
Qed.


(** ** Further properties: the returned result *)

(** X8: a result always lists the same nine parameters in the same order,
    each with its unit and with the value the dict holds under the
    parameter's key. *)
Theorem result_lists_the_nine_parameters (data : data_dict) (r : ScoreResult) :
  fst (predict_water_quality data) = Some r ->
  map fst (parameters r) = parameter_names
  /\ map (fun p => unit_ (snd p)) (parameters r) = parameter_units
  /\ map (fun p => Some (value (snd p))) (parameters r)
     = map (fun k => data !! k) required_keys.
Proof.
  intros H. apply scored_is_measurement in H as (m & Rm & ->).
  destruct Rm as (E1 & E2 & E3 & E4 & E5 & E6 & E7 & E8 & E9).
  cbn [parameters result_after statuses_after map fst snd unit_ value
       required_keys].
  rewrite E1, E2, E3, E4, E5, E6, E7, E8, E9. repeat split.
Qed.

Lemma result_lists_the_nine_parameters_witness :
  map fst (parameters safe_example_result) = parameter_names
  /\ map (fun p => unit_ (snd p)) (parameters safe_example_result)
     = parameter_units.
Proof.
  pose proof (result_lists_the_nine_parameters (prepare_data safe_example)
                safe_example_result) as H.
  split; apply H; vm_compute; reflexivity.
Defined.


Lemma confidence_tests (t : tests) :
  (6.2 <= Py.round1 (score_after t / 9))%Q
  /\ (Py.round1 (score_after t / 9) <= 11.1)%Q
  /\ Qeq_bool (Py.round1 (score_after t / 9)) 11.1
     = (t_ph t && t_hardness t && t_sulfate t && t_solids t && t_chloramines t
        && t_conductivity t && t_organic_carbon t && t_trihalomethanes t
        && t_turbidity t).
Proof.
  destruct t as [[] [] [] [] [] [] [] [] [] []];
    vm_compute; repeat split; discriminate.
Qed.



(** ** Further properties: what the history holds *)

Lemma analyze_recorded now d s :
  Forall recorded (history s) ->
  Forall recorded (history (final (analyze now d s))).
Proof.
  intros H. destruct (validate_input d) as [w | e0] eqn:V.
  - destruct (analyze_ok now d s w V) as (r & P & A). rewrite A.
    cbn [final history]. constructor; [| apply Forall_take, H].
    unfold recorded. cbn [data result]. rewrite P. reflexivity.
  - unfold analyze. rewrite V. exact H.
Qed.

Lemma step_recorded s act :
  Forall recorded (history s) -> Forall recorded (history (step s act)).
Proof.
  intros H. destruct act as [m | now | now d |]; cbn [step history].
  - exact H.
  - apply analyze_recorded, H.
  - apply analyze_recorded, H.
  - constructor.
Qed.

Lemma run_recorded acts s :
  Forall recorded (history s) -> Forall recorded (history (run s acts)).
Proof.
  unfold run. revert s.
  induction acts as [| act acts IH]; intros s H; cbn [foldl]; [exact H |].
  apply IH, step_recorded, H.
Qed.

Lemma run_origin acts s e :
  Forall page_action acts ->
  e ∈ history (run s acts) ->
  e ∈ history s
  \/ exists before now after,
       acts = before ++ Analyze now :: after
       /\ timestamp e = now
       /\ data e = prepare_data (inputs (run s before)).
Proof.
  unfold run. intros Hp. revert s.
  induction Hp as [| act acts Ha Hacts IH]; intros s Hin; cbn [foldl] in Hin;
    [left; exact Hin |].
  destruct (IH _ Hin) as [Hs | (before & now & after & -> & Ht & Hd)].
  - destruct act as [m | now | now d |]; cbn [step history] in Hs.
    + left. exact Hs.
    + destruct (analyze_button_ok s) as [w V].
      destruct (analyze_ok now _ s w V) as (r & _ & A).
      unfold analyze_button in Hs. rewrite A in Hs. cbn [final history] in Hs.
      apply elem_of_cons in Hs as [-> | Hs].
      * right. exists [], now, acts. repeat split.
      * left. apply elem_of_take in Hs as (i & Hi & _).
        exact (list_elem_of_lookup_2 _ _ _ Hi).
    + destruct Ha.
    + inversion Hs.
  - right. exists (act :: before), now, after. repeat split; assumption.
Qed.

Lemma recorded_facts e :
  recorded e ->
  potable (result e) = false
  /\ quality (result e) = Poor
  /\ (6.2 <= confidence (result e))%Q
  /\ (confidence (result e) <= 11.1)%Q.
Proof.
  intros R. destruct (scored_is_measurement _ _ R) as (m & _ & E).
  pose proof (score_after_facts (tests_of m)) as (_ & _ & Hp & Hq & _).
  destruct (confidence_tests (tests_of m)) as (L & U & _).
  rewrite E. cbn [potable quality confidence result_after]. auto.
Qed.

Lemma run_entries_recorded acts e :
  e ∈ history (run initial_session acts) -> recorded e.
Proof.
  intros Hin.
  assert (F : Forall recorded (history (run initial_session acts)))
    by (apply run_recorded; constructor).
  rewrite Forall_forall in F. exact (F e Hin).
Qed.

(** X10: whatever was done since the session began, every entry of the
    history holds the result the scorer gives for the entry's dict, and
    that result is never potable and always graded Poor; when only the
    page's buttons were used, the entry was made by one press of Analyze:
    it carries the time of that press and its dict is the nine numbers the
    form held at that press. *)
Theorem history_entries_are_scored (acts : list action) (e : HistoryEntry) :
  e ∈ history (run initial_session acts) ->
  fst (predict_water_quality (data e)) = Some (result e)
  /\ potable (result e) = false
  /\ quality (result e) = Poor
  /\ (Forall page_action acts ->
      exists before now after,
        acts = before ++ Analyze now :: after
        /\ timestamp e = now
        /\ data e = prepare_data (inputs (run initial_session before))).
Proof.
  intros Hin. pose proof (run_entries_recorded acts e Hin) as R.
  destruct (recorded_facts e R) as (Hp & Hq & _).
  split; [exact R |]. split; [exact Hp |]. split; [exact Hq |].
  intros Hp'.
  destruct (run_origin acts initial_session e Hp' Hin) as [H | H];
    [inversion H | exact H].
Qed.

Lemma history_entries_are_scored_witness :
  potable (result (mkEntry "2024-05-01 10:00:00" safe_example_result
                     (prepare_data safe_example))) = false
  /\ exists before now after,
       [Fill safe_example; Analyze "2024-05-01 10:00:00"]
       = before ++ Analyze now :: after
       /\ now = "2024-05-01 10:00:00"
       /\ prepare_data safe_example
          = prepare_data (inputs (run initial_session before)).
Proof.
  assert (Hin : mkEntry "2024-05-01 10:00:00" safe_example_result
                  (prepare_data safe_example)
                ∈ history (run initial_session
                             [Fill safe_example;
                              Analyze "2024-05-01 10:00:00"]))
    by (vm_compute; left).
  destruct (history_entries_are_scored _ _ Hin) as (_ & Hp & _ & Hf).
  split; [exact Hp |].
  destruct (Hf ltac:(repeat constructor)) as (before & now & after & E & T & D).
  exists before, now, after. cbn [timestamp data] in T, D.
  split; [exact E |]. split; [symmetry; exact T | exact D].
Defined.

(** ** Further properties: the Summary Statistics of [history_page] *)

Lemma count_none (h : list HistoryEntry) :
  Forall (fun e => potable (result e) = false) h ->
  omap (fun e => if potable (result e) then Some 1 else None) h = [].
Proof.
  induction 1 as [| e h He _ IH]; cbn [omap list_omap]; [reflexivity |].
  rewrite He. exact IH.
Qed.

Lemma run_capped acts :
  (length (history (run initial_session acts)) <= 50)%nat.
Proof.
  assert (G : forall s, (length (history s) <= 50)%nat ->
                        (length (history (run s acts)) <= 50)%nat).
  { unfold run. induction acts as [| act acts IH]; intros s H; cbn [foldl];
      [exact H |].
    apply IH, step_capped, H. }
  apply G. cbn. lia.
Qed.

(** With no test counted the percentage is 0.0, with all of them counted
    it is 100.0: checked for each of the 50 possible totals. *)
Lemma percent_of_none_and_all (n : nat) :
  (1 <= n <= 50)%nat ->
  percent 0 (Z.of_nat n) = int_to_float 0
  /\ percent (Z.of_nat n) (Z.of_nat n) = int_to_float 100.
Proof.
  intros [L U].
  do 51 (destruct n as [| n]; [first [lia | vm_compute; split; reflexivity] |]).
  lia.
Qed.

(** X12: on the page the history shows, whatever was done before, the
    total is the length of the history, between 1 and 50; the Safe Water
    count is 0 and its percentage 0.0; the Unsafe Water count is the total
    and its percentage 100.0. *)
Theorem summary_of_a_session (acts : list action) (s : summary) :
  history_summary (history (run initial_session acts)) = Some s ->
  total_tests s = Z.of_nat (length (history (run initial_session acts)))
  /\ 0 < total_tests s <= 50
  /\ potable_count s = 0
  /\ not_potable_count s = total_tests s
  /\ safe_percent s = int_to_float 0
  /\ unsafe_percent s = int_to_float 100.
Proof.
  intros H.
  assert (F : Forall (fun e => potable (result e) = false)
                (history (run initial_session acts))).
  { apply Forall_forall. intros e He.
    exact (proj1 (recorded_facts e (run_entries_recorded acts e He))). }
  pose proof (run_capped acts) as C.
  set (h := history (run initial_session acts)) in *.
  assert (N : (1 <= length h)%nat).
  { destruct h; [discriminate H | cbn [length]; lia]. }
  destruct (percent_of_none_and_all (length h) (conj N C)) as [P0 P100].
  assert (E : s = mkSummary (Z.of_nat (length h)) 0 (Z.of_nat (length h))
                    (int_to_float 0) (int_to_float 100)).
  { unfold history_summary in H. rewrite (count_none h F) in H.
    cbn [foldl] in H. rewrite Z.sub_0_r, P0, P100 in H.
    destruct h; [discriminate H | congruence]. }
  rewrite E. cbn [total_tests potable_count not_potable_count safe_percent
                  unsafe_percent].
  repeat split; lia.
Qed.

Lemma summary_of_a_session_witness :
  exists s,
    history_summary
      (history (run initial_session
                  [Fill safe_example; Analyze "2024-05-01 10:00:00"]))
    = Some s
    /\ potable_count s = 0
    /\ unsafe_percent s = int_to_float 100.
Proof.
  eexists. split; [vm_compute; reflexivity |].
  pose proof (summary_of_a_session
                [Fill safe_example; Analyze "2024-05-01 10:00:00"] _
                ltac:(vm_compute; reflexivity)) as (_ & _ & P & _ & _ & U).
  split; [exact P | exact U].
Defined.

(** ** Further properties: [display_results] *)

Lemma issues_of_nil py_str ps : issues_of py_str ps = [] <-> all_good ps.
Proof.
  unfold issues_of, all_good.
  induction ps as [| p ps IH]; cbn [omap list_omap].
  - split; [constructor | reflexivity].
  - rewrite Forall_cons. destruct (status (snd p)).
    + rewrite IH. split; [auto | tauto].
    + split; [discriminate | intros [H _]; discriminate H].
Qed.

Lemma issues_of_length py_str ps :
  length (issues_of py_str ps) = warning_count ps.
Proof.
  unfold issues_of, warning_count.
  induction ps as [| p ps IH]; cbn [omap list_omap List.filter];
    [reflexivity |].
  destruct (status (snd p)); cbn [length]; rewrite IH; reflexivity.
Qed.

Lemma cells_hold_no_advice (ps : list (string * ParameterStatus)) x :
  x ∈ imap parameter_cell ps ->
  exists col cls param emoji v u text,
    x = ParameterCell col cls param emoji v u text.
Proof.
  intros H. apply elem_of_lookup_imap_1 in H as (i & p & -> & _).
  unfold parameter_cell. eauto 10.
Qed.

(** X13: for any result the scorer returns, the page opens with the
    "NOT Safe to Drink" card graded Poor, gives the unsafe advice and the
    Specific Issues header, and never the safe card or the safe advice.
    The list of issues is shown exactly when some status is 'warning', and
    then has one line per such parameter; when all nine are 'good' the
    header stands alone. *)
Theorem display_is_always_unsafe (py_str : Py.value -> string)
    (data : data_dict) (r : ScoreResult) :
  fst (predict_water_quality data) = Some r ->
  (exists rest,
      display_results py_str r
      = ResultCard false Poor (confidence r) :: rest)
  /\ AdviceUnsafe ∈ display_results py_str r
  /\ IssuesHeader ∈ display_results py_str r
  /\ (AdviceSafe ∉ display_results py_str r)
  /\ (forall q c, ResultCard true q c ∉ display_results py_str r)
  /\ ((exists issues, IssuesWarning issues ∈ display_results py_str r)
      <-> ~ all_good (parameters r))
  /\ (forall issues,
        IssuesWarning issues ∈ display_results py_str r ->
        issues = issues_of py_str (parameters r)
        /\ length issues = warning_count (parameters r)
        /\ (0 < length issues)%nat).
Proof.
  intros H.
  assert (P : potable r = false /\ quality r = Poor).
  { apply scored_is_measurement in H as (m & _ & ->).
    pose proof (score_after_facts (tests_of m)) as (_ & _ & Hp & Hq & _).
    cbn [potable quality result_after]. auto. }
  destruct P as [Pp Pq]. unfold display_results. rewrite Pp, Pq.
  assert (W : forall issues,
            IssuesWarning issues
            ∈ [ResultCard false Poor (confidence r)]
              ++ imap parameter_cell (parameters r)
              ++ [AdviceUnsafe; IssuesHeader]
              ++ match issues_of py_str (parameters r) with
                 | [] => []
                 | i :: l => [IssuesWarning (i :: l)]
                 end ->
            issues = issues_of py_str (parameters r) /\ issues <> []).
  { intros issues Hi.
    apply elem_of_cons in Hi as [Hi | Hi]; [discriminate Hi |].
    apply elem_of_app in Hi as [Hi | Hi].
    { apply cells_hold_no_advice in Hi as (? & ? & ? & ? & ? & ? & ? & Hi).
      discriminate Hi. }
    apply elem_of_cons in Hi as [Hi | Hi]; [discriminate Hi |].
    apply elem_of_cons in Hi as [Hi | Hi]; [discriminate Hi |].
    destruct (issues_of py_str (parameters r)) as [| i l];
      [inversion Hi |].
    apply list_elem_of_singleton in Hi. injection Hi as ->.
    split; [reflexivity | discriminate]. }
  split; [eexists; reflexivity |].
  split; [apply elem_of_cons; right; apply elem_of_app; right; left |].
  split; [apply elem_of_cons; right; apply elem_of_app; right; right; left |].
  split.
  { intros Hi.
    apply elem_of_cons in Hi as [Hi | Hi]; [discriminate Hi |].
    apply elem_of_app in Hi as [Hi | Hi].
    { apply cells_hold_no_advice in Hi as (? & ? & ? & ? & ? & ? & ? & Hi).
      discriminate Hi. }
    apply elem_of_cons in Hi as [Hi | Hi]; [discriminate Hi |].
    apply elem_of_cons in Hi as [Hi | Hi]; [discriminate Hi |].
    destruct (issues_of py_str (parameters r)); [inversion Hi |].
    apply list_elem_of_singleton in Hi. discriminate Hi. }
  split.
  { intros q c Hi.
    apply elem_of_cons in Hi as [Hi | Hi]; [discriminate Hi |].
    apply elem_of_app in Hi as [Hi | Hi].
    { apply cells_hold_no_advice in Hi as (? & ? & ? & ? & ? & ? & ? & Hi).
      discriminate Hi. }
    apply elem_of_cons in Hi as [Hi | Hi]; [discriminate Hi |].
    apply elem_of_cons in Hi as [Hi | Hi]; [discriminate Hi |].
    destruct (issues_of py_str (parameters r)); [inversion Hi |].
    apply list_elem_of_singleton in Hi. discriminate Hi. }
  split.
  { rewrite <- (issues_of_nil py_str). split.
    - intros [issues Hi]. destruct (W issues Hi) as [-> Hn]. exact Hn.
    - intros Hn. exists (issues_of py_str (parameters r)).
      destruct (issues_of py_str (parameters r)) as [| i l]; [congruence |].
      apply elem_of_cons; right. apply elem_of_app; right.
      right. right. left. }
  intros issues Hi. destruct (W issues Hi) as [-> Hn].
  split; [reflexivity |]. split; [apply issues_of_length |].
  destruct (issues_of py_str (parameters r)); [congruence | cbn; lia].
Qed.

Lemma display_is_always_unsafe_witness :
  AdviceUnsafe ∈ display_results (fun _ => "") safe_example_result
  /\ IssuesHeader ∈ display_results (fun _ => "") safe_example_result.
Proof.
  pose proof (display_is_always_unsafe (fun _ => "")
                (prepare_data safe_example) safe_example_result) as H.
  split; apply H; vm_compute; reflexivity.
Defined.

(** ** Further properties: the report *)

Lemma setitem_fresh {V} (d : list (string * V)) k v :
  k ∉ map fst d -> Py.setitem d k v = d ++ [(k, v)].
Proof.
  induction d as [| [k' v'] d IH]; cbn [Py.setitem map fst app];
    intros H; [reflexivity |].
  apply not_elem_of_cons in H as [Hk Hd].
  destruct (String.eqb_spec k' k) as [-> | _]; [congruence |].
  rewrite (IH Hd). reflexivity.
Qed.

Lemma status_report_from (ps : list (string * ParameterStatus)) acc :
  NoDup (map fst acc ++ map fst ps) ->
  foldl (fun d p => Py.setitem d (fst p) (status (snd p))) acc ps
  = acc ++ map (fun p => (fst p, status (snd p))) ps.
Proof.
  revert acc. induction ps as [| p ps IH]; intros acc N; cbn [foldl map].
  - rewrite app_nil_r. reflexivity.
  - assert (F : fst p ∉ map fst acc).
    { apply NoDup_app in N as (_ & D & _). intros Hin.
      apply (D _ Hin). left. }
    rewrite (setitem_fresh acc _ _ F), IH.
    + rewrite <- app_assoc. reflexivity.
    + rewrite map_app. cbn [map fst]. rewrite <- app_assoc. exact N.
Qed.

(** X14: the report's Parameter Status dict has the keys of the
    parameter dict in the same order, each with that parameter's status;
    for any result the scorer returns it lists the nine parameters and the
    report's Result is NOT POTABLE. *)
Theorem report_repeats_the_statuses :
  (forall ps,
      NoDup (map fst ps) ->
      parameter_status_report ps = map (fun p => (fst p, status (snd p))) ps)
  /\ forall data r,
      fst (predict_water_quality data) = Some r ->
      parameter_status_report (parameters r)
      = map (fun p => (fst p, status (snd p))) (parameters r)
      /\ map fst (parameter_status_report (parameters r)) = parameter_names
      /\ result_text r = "NOT POTABLE".
Proof.
  assert (G : forall ps,
             NoDup (map fst ps) ->
             parameter_status_report ps
             = map (fun p => (fst p, status (snd p))) ps).
  { intros ps N. unfold parameter_status_report.
    rewrite status_report_from; [reflexivity | exact N]. }
  split; [exact G |].
  intros data r H.
  assert (Hn : map fst (parameters r) = parameter_names).
  { destruct (scored_is_measurement data r H) as (m & _ & ->). reflexivity. }
  assert (N : NoDup (map fst (parameters r))).
  { rewrite Hn. apply (bool_decide_unpack _). vm_compute. exact I. }
  rewrite (G _ N). split; [reflexivity |].
  split.
  - rewrite <- Hn. rewrite map_map. reflexivity.
  - apply scored_is_measurement in H as (m & _ & ->).
    pose proof (score_after_facts (tests_of m)) as (_ & _ & Hp & _).
    unfold result_text. cbn [potable result_after]. rewrite Hp. reflexivity.
Qed.

Lemma report_repeats_the_statuses_witness :
  result_text safe_example_result = "NOT POTABLE".
Proof.
  apply (proj2 report_repeats_the_statuses (prepare_data safe_example)).
  vm_compute; reflexivity.
Defined.

(** ** Further properties: the chart, the list and the export of
    [history_page] *)

(** X15: the Recent Tests list numbers the tests from the newest, the
    trend chart from the oldest: the entry at place [k] of a history of
    [n] entries is titled "Test #k+1" in the list and is the point
    "Test n-k" of the chart; both show every entry once, and only the
    newest entry's expander is open. *)
Theorem list_and_chart_number_in_opposite_order
    (h : list HistoryEntry) (k : nat) (e : HistoryEntry) :
  h !! k = Some e ->
  recent_tests h !! k
  = Some {| ex_title := "Test #" +:+ pretty (k + 1)%nat +:+ " - "
                        +:+ timestamp e;
            ex_expanded := (k =? 0)%nat;
            ex_entry := e |}
  /\ trend_rows h !! (length h - S k)%nat
     = Some {| tr_test := "Test " +:+ pretty (length h - k)%nat;
               tr_confidence := confidence (result e);
               tr_status := if potable (result e) then "Safe" else "Unsafe" |}
  /\ length (recent_tests h) = length h
  /\ length (trend_rows h) = length h
  /\ (forall x, x ∈ recent_tests h -> ex_expanded x = true ->
                recent_tests h !! 0%nat = Some x).
Proof.
  intros H. pose proof (lookup_lt_Some _ _ _ H) as Hk.
  unfold recent_tests, trend_rows.
  split; [rewrite list_lookup_imap, H; reflexivity |].
  split.
  { rewrite list_lookup_imap, reverse_lookup by lia.
    replace (length h - S (length h - S k))%nat with k by lia.
    rewrite H. cbn [fmap option_fmap option_map].
    replace (length h - S k + 1)%nat with (length h - k)%nat by lia.
    reflexivity. }
  split; [apply length_imap |].
  split; [rewrite length_imap, length_reverse; reflexivity |].
  intros x Hx Ex.
  apply elem_of_lookup_imap_1 in Hx as (i & y & -> & Hy).
  cbn [ex_expanded] in Ex. apply Nat.eqb_eq in Ex. subst i.
  rewrite list_lookup_imap, Hy. reflexivity.
Qed.

Lemma list_and_chart_number_in_opposite_order_witness :
  trend_rows
    [mkEntry "2024-05-02 09:00:00" safe_example_result
       (prepare_data safe_example);
     mkEntry "2024-05-01 10:00:00" safe_example_result
       (prepare_data safe_example)] !! 1%nat
  = Some {| tr_test := "Test 2";
            tr_confidence := 11.1;
            tr_status := "Unsafe" |}.
Proof.
  exact (proj1 (proj2 (list_and_chart_number_in_opposite_order
           [mkEntry "2024-05-02 09:00:00" safe_example_result
              (prepare_data safe_example);
            mkEntry "2024-05-01 10:00:00" safe_example_result
              (prepare_data safe_example)] 0
           (mkEntry "2024-05-02 09:00:00" safe_example_result
              (prepare_data safe_example)) eq_refl))).
Defined.

(** X16: in a row of the CSV export the dict's entries come last and win:
    a key of the dict keeps the dict's value even when it is named like
    one of the four columns; a dict built from the form leaves the four
    columns as written, adds its nine numbers and makes a row of 13
    columns; the export has one row per entry. *)
Theorem csv_row_columns (e : HistoryEntry) :
  (forall k v, data e !! k = Some v -> csv_row e !! k = Some v)
  /\ (forall m,
        data e = prepare_data m ->
        csv_row e !! "Timestamp" = Some (Py.Str (timestamp e))
        /\ csv_row e !! "Result" = Some (Py.Str (result_text (result e)))
        /\ csv_row e !! "Confidence"
           = Some (Py.Float (confidence (result e)))
        /\ csv_row e !! "Quality"
           = Some (Py.Str (quality_name (quality (result e))))
        /\ (forall k, k ∈ required_keys ->
                      csv_row e !! k = prepare_data m !! k)
        /\ size (csv_row e) = 13%nat)
  /\ forall h, length (history_data h) = length h.
Proof.
  split; [| split].
  - intros k v H. unfold csv_row. apply lookup_union_Some_l, H.
  - intros m E. unfold csv_row. rewrite E.
    repeat split; try reflexivity.
    intros k Hk. unfold required_keys in Hk.
    repeat (apply elem_of_cons in Hk as [-> | Hk]; [reflexivity |]).
    inversion Hk.
  - intros h. unfold history_data. apply length_map.
Qed.

Lemma csv_row_columns_witness :
  csv_row (mkEntry "2024-05-01 10:00:00" safe_example_result
             (<["Result" := Py.Str "mine"]> (prepare_data safe_example)))
    !! "Result"
  = Some (Py.Str "mine")
  /\ size (csv_row (mkEntry "2024-05-01 10:00:00" safe_example_result
                      (prepare_data safe_example))) = 13%nat.
Proof.
  split.
  - apply (proj1 (csv_row_columns _)). reflexivity.
  - apply (proj1 (proj2 (csv_row_columns
                           (mkEntry "2024-05-01 10:00:00" safe_example_result
                              (prepare_data safe_example))))
             safe_example).
    reflexivity.
Defined.

(** ** Further properties: [initialize_session_state] *)

Lemma set_default_keeps s d k v :
  s !! k = Some v -> set_default s d !! k = Some v.
Proof.
  intros H. unfold set_default.
  destruct (s !! fst d) eqn:E; [exact H |].
  rewrite lookup_insert_ne; [exact H | congruence].
Qed.

Lemma set_default_other s d k :
  k <> fst d -> set_default s d !! k = s !! k.
Proof.
  intros H. unfold set_default.
  destruct (s !! fst d); [reflexivity |].
  apply lookup_insert_ne. congruence.
Qed.

Lemma set_default_sets s d : is_Some (set_default s d !! fst d).
Proof.
  unfold set_default. destruct (s !! fst d) eqn:E.
  - rewrite E. eauto.
  - rewrite lookup_insert_eq. eauto.
Qed.

Lemma set_default_present s d : is_Some (s !! fst d) -> set_default s d = s.
Proof. intros [v E]. unfold set_default. rewrite E. reflexivity. Qed.

Lemma defaults_keep (l : list (string * Q)) s k v :
  s !! k = Some v -> foldl set_default s l !! k = Some v.
Proof.
  revert s. induction l as [| d l IH]; intros s H; cbn [foldl]; [exact H |].
  apply IH, set_default_keeps, H.
Qed.

Lemma defaults_other (l : list (string * Q)) s k :
  k ∉ map fst l -> foldl set_default s l !! k = s !! k.
Proof.
  revert s. induction l as [| d l IH]; intros s H; cbn [foldl];
    [reflexivity |].
  cbn [map] in H. apply not_elem_of_cons in H as [Hd Hl].
  rewrite (IH _ Hl). apply set_default_other, Hd.
Qed.

Lemma defaults_set (l : list (string * Q)) s k :
  k ∈ map fst l -> is_Some (foldl set_default s l !! k).
Proof.
  revert s. induction l as [| d l IH]; intros s H; cbn [foldl];
    [inversion H |].
  cbn [map] in H. apply elem_of_cons in H as [-> | H]; [| apply IH, H].
  destruct (set_default_sets s d) as [v E].
  rewrite (defaults_keep l _ _ _ E). eauto.
Qed.

Lemma defaults_present (l : list (string * Q)) s :
  (forall k, k ∈ map fst l -> is_Some (s !! k)) -> foldl set_default s l = s.
Proof.
  induction l as [| d l IH]; intros H; cbn [foldl]; [reflexivity |].
  rewrite set_default_present by (apply H; left).
  apply IH. intros k Hk. apply H. right. exact Hk.
Qed.

(** X17: [initialize_session_state] only fills what is missing: every key
    the session already has keeps its value, so a rerun never resets the
    form or the history; afterwards ["history"] and the nine parameter
    keys are present and no other key has changed; running it a second
    time changes nothing. *)
Theorem initialize_only_fills_gaps (s : raw_state) :
  (forall k v, s !! k = Some v -> initialize_session_state s !! k = Some v)
  /\ (forall k, k ∈ "history" :: map fst defaults ->
                is_Some (initialize_session_state s !! k))
  /\ (forall k, k ∉ "history" :: map fst defaults ->
                initialize_session_state s !! k = s !! k)
  /\ initialize_session_state (initialize_session_state s)
     = initialize_session_state s.
Proof.
  assert (K : forall k v, s !! k = Some v ->
                          initialize_session_state s !! k = Some v).
  { intros k v H. unfold initialize_session_state. apply defaults_keep.
    destruct (s !! "history") eqn:E; [exact H |].
    rewrite lookup_insert_ne; [exact H | congruence]. }
  assert (P : forall k, k ∈ "history" :: map fst defaults ->
                        is_Some (initialize_session_state s !! k)).
  { intros k H. unfold initialize_session_state.
    apply elem_of_cons in H as [-> | H]; [| apply defaults_set, H].
    destruct (s !! "history") eqn:E.
    - rewrite (defaults_keep _ _ _ _ E). eauto.
    - rewrite (defaults_keep _ _ "history" (HistoryList []));
        [eauto | apply lookup_insert_eq]. }
  split; [exact K |]. split; [exact P |]. split.
  - intros k H. apply not_elem_of_cons in H as [Hh Hd].
    unfold initialize_session_state. rewrite (defaults_other _ _ _ Hd).
    destruct (s !! "history"); [reflexivity |].
    apply lookup_insert_ne. congruence.
  - unfold initialize_session_state at 1.
    destruct (P "history" ltac:(left)) as [v ->].
    apply defaults_present. intros k Hk. apply P. right. exact Hk.
Qed.

(** X18: on a fresh session [initialize_session_state] gives the session
    the pages start from, the nine defaults and an empty history; and the
    Reset to Defaults button puts back exactly these nine values, whatever
    the state, without touching the history. *)
Theorem fresh_session_and_reset :
  view (initialize_session_state ∅) = Some initial_session
  /\ forall s,
       reset_button s !! "history" = s !! "history"
       /\ (forall k, k ∈ map fst defaults ->
                     reset_button s !! k = initialize_session_state ∅ !! k)
       /\ (forall h,
             history_at s = Some h ->
             view (reset_button s)
             = Some (mkSession (inputs initial_session) h)).
Proof.
  split; [reflexivity |].
  intros s.
  assert (R : reset_button s
              = <["turbidity" := Number 3.0%Q]> (
                <["trihalomethanes" := Number 60.0%Q]> (
                <["organic_carbon" := Number 1.5%Q]> (
                <["conductivity" := Number 350.0%Q]> (
                <["sulfate" := Number 200.0%Q]> (
                <["chloramines" := Number 3.0%Q]> (
                <["solids" := Number 400.0%Q]> (
                <["hardness" := Number 200.0%Q]> (
                <["ph" := Number 7.0%Q]> s)))))))))
    by reflexivity.
  assert (Hh : reset_button s !! "history" = s !! "history").
  { rewrite R. repeat (rewrite lookup_insert_ne by discriminate).
    reflexivity. }
  split; [exact Hh |]. split.
  - intros k Hk. rewrite R. cbn [map fst defaults] in Hk.
    repeat (apply elem_of_cons in Hk as [-> | Hk];
            [repeat (rewrite lookup_insert_ne by discriminate);
             rewrite lookup_insert_eq; reflexivity |]).
    inversion Hk.
  - intros h H. unfold view, history_at, number_at. rewrite Hh.
    unfold history_at in H. destruct (s !! "history") as [[l |] |];
      try discriminate H. injection H as ->.
    rewrite R.
    repeat (rewrite ?lookup_insert_eq;
            rewrite ?lookup_insert_ne by discriminate).
    reflexivity.
Qed.

Lemma fresh_session_and_reset_witness :
  view (reset_button
          (<["ph" := Number 3]> (<["history" := HistoryList []]> ∅)))
  = Some initial_session.
Proof.
  apply (proj2 fresh_session_and_reset). reflexivity.
Defined.

(** ** Further properties: better readings *)






(** * The scorer and the validator on IEEE doubles *)

Module IEEEFacts.
Import PrimFloat SpecFloat FloatOps FloatAxioms.
#[local] Set Warnings "-inexact-float".

(** ** The order of the doubles *)

Ltac cmp_cases :=
  repeat match goal with
  | |- context [Pos.compare_cont Eq ?p ?q] =>
      change (Pos.compare_cont Eq p q) with (Pos.compare p q)
  | H : context [Pos.compare_cont Eq ?p ?q] |- _ =>
      change (Pos.compare_cont Eq p q) with (Pos.compare p q) in H
  end;
  repeat match goal with
  | H : context [Z.compare ?x ?y] |- _ => destruct (Z.compare_spec x y)
  | H : context [Pos.compare ?x ?y] |- _ => destruct (Pos.compare_spec x y)
  | |- context [Z.compare ?x ?y] => destruct (Z.compare_spec x y)
  | |- context [Pos.compare ?x ?y] => destruct (Pos.compare_spec x y)
  end.

Lemma SFcompare_refl x : x <> S754_nan -> SFcompare x x = Some Eq.
Proof.
  destruct x as [s | s | | s m e]; cbn; intros H; try congruence.
  - destruct s; reflexivity.
  - rewrite Z.compare_refl.
    change (Pos.compare_cont Eq m m) with (Pos.compare m m).
    rewrite Pos.compare_refl. destruct s; reflexivity.
Qed.

Lemma SFcompare_antisym x y :
  SFcompare y x = option_map CompOpp (SFcompare x y).
Proof.
  destruct x as [s | s | | s m e], y as [s' | s' | | s' m' e']; cbn;
    try reflexivity; try (destruct s; reflexivity);
    try (destruct s'; reflexivity); try (destruct s, s'; reflexivity).
  change (Pos.compare_cont Eq m' m) with (Pos.compare m' m).
  change (Pos.compare_cont Eq m m') with (Pos.compare m m').
  rewrite (Z.compare_antisym e e'), (Pos.compare_antisym m m').
  destruct s, s', (e ?= e')%Z, (m ?= m')%positive; reflexivity.
Qed.

Lemma SFcompare_None x y :
  SFcompare x y = None <-> x = S754_nan \/ y = S754_nan.
Proof.
  destruct x as [s | s | | s m e], y as [s' | s' | | s' m' e']; cbn;
    try (split; [discriminate | intros [H | H]; discriminate H]);
    try (split; [auto | reflexivity]);
    try (destruct s; split; solve [discriminate
                                  | intros [H | H]; discriminate H]);
    try (destruct s'; split; solve [discriminate
                                   | intros [H | H]; discriminate H]);
    try (destruct s, s'; split; solve [discriminate
                                      | intros [H | H]; discriminate H]).
Qed.

Lemma SFcompare_chain x y z :
  SFleb x y = true -> SFleb y z = true ->
  SFleb x z = true
  /\ (SFltb x y = true \/ SFltb y z = true -> SFltb x z = true).
Proof.
  unfold SFleb, SFltb.
  destruct x as [s | s | | s m e], y as [s' | s' | | s' m' e'],
    z as [s'' | s'' | | s'' m'' e'']; cbn;
  try (destruct s); try (destruct s'); try (destruct s''); cbn;
  intros H1 H2; try discriminate; (split; [| intros [H3 | H3]]);
  try reflexivity; try discriminate; try assumption;
  cmp_cases; cbn in *; try reflexivity; try discriminate; try lia.
Qed.

Lemma is_nan_spec x : is_nan x = true <-> Prim2SF x = S754_nan.
Proof.
  unfold is_nan. rewrite eqb_spec. unfold SFeqb. split.
  - intros H. destruct (SFcompare (Prim2SF x) (Prim2SF x)) as [c |] eqn:E.
    + destruct (Prim2SF x) as [s | s | | s m e] eqn:P; [| | reflexivity |];
        rewrite SFcompare_refl in E by discriminate;
        injection E as <-; discriminate H.
    + apply SFcompare_None in E. tauto.
  - intros ->. reflexivity.
Qed.

Lemma not_nan_spec x : is_nan x = false <-> Prim2SF x <> S754_nan.
Proof.
  rewrite <- is_nan_spec. destruct (is_nan x); split; congruence.
Qed.

(** A comparison with NaN is false. *)
Lemma nan_compares_false x y :
  is_nan x = true ->
  (x <? y)%float = false /\ (y <? x)%float = false
  /\ (x <=? y)%float = false /\ (y <=? x)%float = false.
Proof.
  intros H. apply is_nan_spec in H.
  rewrite !ltb_spec, !leb_spec. unfold SFltb, SFleb.
  rewrite (proj2 (SFcompare_None (Prim2SF x) (Prim2SF y)) (or_introl H)).
  rewrite (proj2 (SFcompare_None (Prim2SF y) (Prim2SF x)) (or_intror H)).
  auto.
Qed.

Lemma ltb_leb x y : (x <? y)%float = true -> (x <=? y)%float = true.
Proof.
  rewrite ltb_spec, leb_spec. unfold SFltb, SFleb.
  destruct (SFcompare _ _) as [[] |]; congruence.
Qed.

Lemma leb_chain x y z :
  (x <=? y)%float = true -> (y <=? z)%float = true ->
  ((x <? y)%float = true \/ (y <? z)%float = true) ->
  (x <? z)%float = true.
Proof.
  rewrite !ltb_spec, !leb_spec. intros H1 H2.
  exact (proj2 (SFcompare_chain _ _ _ H1 H2)).
Qed.

Lemma ltb_ltb x y z :
  (x <? y)%float = true -> (y <? z)%float = true -> (x <? z)%float = true.
Proof.
  intros H1 H2. apply (leb_chain x y z); auto using ltb_leb.
Qed.

Lemma leb_ltb x y z :
  (x <=? y)%float = true -> (y <? z)%float = true -> (x <? z)%float = true.
Proof.
  intros H1 H2. apply (leb_chain x y z); auto using ltb_leb.
Qed.

Lemma ltb_leb_trans x y z :
  (x <? y)%float = true -> (y <=? z)%float = true -> (x <? z)%float = true.
Proof.
  intros H1 H2. apply (leb_chain x y z); auto using ltb_leb.
Qed.

Lemma ltb_irrefl x : (x <? x)%float = false.
Proof.
  rewrite ltb_spec. unfold SFltb.
  destruct (SFcompare (Prim2SF x) (Prim2SF x)) as [c |] eqn:E;
    [| reflexivity].
  destruct (Prim2SF x) as [s | s | | s m e] eqn:P; [| | discriminate E |];
    rewrite SFcompare_refl in E by discriminate; injection E as <-;
    reflexivity.
Qed.

(** Between two numbers, [x < y] fails exactly when [y <= x]. *)
Lemma ltb_false x y :
  is_nan x = false -> is_nan y = false ->
  (x <? y)%float = false <-> (y <=? x)%float = true.
Proof.
  intros Nx Ny. apply not_nan_spec in Nx, Ny.
  rewrite ltb_spec, leb_spec. unfold SFltb, SFleb.
  rewrite (SFcompare_antisym (Prim2SF x) (Prim2SF y)).
  destruct (SFcompare (Prim2SF x) (Prim2SF y)) as [[] |] eqn:E; cbn;
    try (split; congruence).
  apply SFcompare_None in E. tauto.
Qed.

(** [limit < x] fails exactly when [x] is NaN or at most the limit. *)
Lemma above_false limit x :
  is_nan limit = false ->
  (limit <? x)%float = false
  <-> is_nan x = true \/ (x <=? limit)%float = true.
Proof.
  intros Nl. destruct (is_nan x) eqn:Nx.
  - split; [auto | intros _; apply (nan_compares_false x limit Nx)].
  - rewrite (ltb_false limit x Nl Nx). split; [auto | intros [H | H]];
      [discriminate H | exact H].
Qed.

(** [x < limit] fails exactly when [x] is NaN or at least the limit. *)
Lemma below_false limit x :
  is_nan limit = false ->
  (x <? limit)%float = false
  <-> is_nan x = true \/ (limit <=? x)%float = true.
Proof.
  intros Nl. destruct (is_nan x) eqn:Nx.
  - split; [auto | intros _; apply (nan_compares_false x limit Nx)].
  - rewrite (ltb_false x limit Nx Nl). split; [auto | intros [H | H]];
      [discriminate H | exact H].
Qed.

(** Two floats that [=?] tells apart are different. *)
Lemma eqb_false_neq x y : (x =? y)%float = false -> is_nan x = false -> x <> y.
Proof.
  intros H N E. subst y. unfold is_nan in N. rewrite H in N. discriminate N.
Qed.

(** ** The scorer and the validator on a Measurement *)

Section OnForm.

Variable m : IEEE.Measurement.

Ltac read_key key field :=
  change (Py.getitem (IEEE.prepare_data m) key)
    with (Py.Ok (IEEE.Float (field m)));
  cbn [Py.bind IEEE.lt IEEE.le IEEE.gt].

Ltac run_check_ieee key field c :=
  unfold IEEE.add_score, IEEE.set_status; read_key key field;
  destruct c; reflexivity.

Lemma check_ph_ieee a :
  IEEE.check_ph (IEEE.prepare_data m) a
  = Py.Ok (IEEE.credited 0.128
             (if (6.5 <=? IEEE.m_ph m)%float && (IEEE.m_ph m <=? 8.5)%float
              then 100 else 50) "pH"
             (tag ((6.5 <=? IEEE.m_ph m)%float
                   && (IEEE.m_ph m <=? 8.5)%float))
             (IEEE.m_ph m) "" a).
Proof.
  unfold IEEE.check_ph, IEEE.add_score, IEEE.set_status.
  read_key "ph" IEEE.m_ph.
  destruct (6.5 <=? IEEE.m_ph m)%float; cbn [Py.bind IEEE.le andb];
    [destruct (IEEE.m_ph m <=? 8.5)%float |]; reflexivity.
Qed.

Lemma check_hardness_ieee a :
  IEEE.check_hardness (IEEE.prepare_data m) a
  = Py.Ok (IEEE.credited 0.119
             (if (IEEE.m_hardness m <? 300)%float then 100 else 60)
             "Hardness" (tag (IEEE.m_hardness m <? 300)%float)
             (IEEE.m_hardness m) "mg/L" a).
Proof.
  unfold IEEE.check_hardness.
  run_check_ieee "hardness" IEEE.m_hardness (IEEE.m_hardness m <? 300)%float.
Qed.

Lemma check_sulfate_ieee a :
  IEEE.check_sulfate (IEEE.prepare_data m) a
  = Py.Ok (IEEE.credited 0.142
             (if (IEEE.m_sulfate m <? 250)%float then 100 else 50)
             "Sulfate" (tag (IEEE.m_sulfate m <? 250)%float)
             (IEEE.m_sulfate m) "mg/L" a).
Proof.
  unfold IEEE.check_sulfate.
  run_check_ieee "sulfate" IEEE.m_sulfate (IEEE.m_sulfate m <? 250)%float.
Qed.

Lemma check_solids_ieee a :
  IEEE.check_solids (IEEE.prepare_data m) a
  = Py.Ok (IEEE.credited 0.114
             (if (IEEE.m_solids m <? 500)%float then 100
              else if (IEEE.m_solids m <? 1000)%float then 70 else 40)
             "TDS" (tag (IEEE.m_solids m <? 500)%float)
             (IEEE.m_solids m) "ppm" a).
Proof.
  unfold IEEE.check_solids, IEEE.add_score, IEEE.set_status.
  read_key "solids" IEEE.m_solids.
  destruct (IEEE.m_solids m <? 500)%float; [reflexivity |].
  cbn [Py.bind IEEE.lt].
  destruct (IEEE.m_solids m <? 1000)%float; reflexivity.
Qed.

Lemma check_chloramines_ieee a :
  IEEE.check_chloramines (IEEE.prepare_data m) a
  = Py.Ok (IEEE.credited 0.108
             (if (IEEE.m_chloramines m <? 4)%float then 100 else 60)
             "Chloramines" (tag (IEEE.m_chloramines m <? 4)%float)
             (IEEE.m_chloramines m) "ppm" a).
Proof.
  unfold IEEE.check_chloramines.
  run_check_ieee "chloramines" IEEE.m_chloramines
    (IEEE.m_chloramines m <? 4)%float.
Qed.

Lemma check_conductivity_ieee a :
  IEEE.check_conductivity (IEEE.prepare_data m) a
  = Py.Ok (IEEE.credited 0.102
             (if (IEEE.m_conductivity m <? 400)%float then 100 else 70)
             "Conductivity" (tag (IEEE.m_conductivity m <? 400)%float)
             (IEEE.m_conductivity m) "μS/cm" a).
Proof.
  unfold IEEE.check_conductivity.
  run_check_ieee "conductivity" IEEE.m_conductivity
    (IEEE.m_conductivity m <? 400)%float.
Qed.

Lemma check_organic_carbon_ieee a :
  IEEE.check_organic_carbon (IEEE.prepare_data m) a
  = Py.Ok (IEEE.credited 0.098
             (if (IEEE.m_organic_carbon m <? 2)%float then 100 else 70)
             "Organic Carbon" (tag (IEEE.m_organic_carbon m <? 2)%float)
             (IEEE.m_organic_carbon m) "ppm" a).
Proof.
  unfold IEEE.check_organic_carbon.
  run_check_ieee "organic_carbon" IEEE.m_organic_carbon
    (IEEE.m_organic_carbon m <? 2)%float.
Qed.

Lemma check_trihalomethanes_ieee a :
  IEEE.check_trihalomethanes (IEEE.prepare_data m) a
  = Py.Ok (IEEE.credited 0.095
             (if (IEEE.m_trihalomethanes m <? 80)%float then 100 else 50)
             "Trihalomethanes" (tag (IEEE.m_trihalomethanes m <? 80)%float)
             (IEEE.m_trihalomethanes m) "μg/L" a).
Proof.
  unfold IEEE.check_trihalomethanes.
  run_check_ieee "trihalomethanes" IEEE.m_trihalomethanes
    (IEEE.m_trihalomethanes m <? 80)%float.
Qed.

Lemma check_turbidity_ieee a :
  IEEE.check_turbidity (IEEE.prepare_data m) a
  = Py.Ok (IEEE.credited 0.094
             (if (IEEE.m_turbidity m <? 5)%float then 100 else 60)
             "Turbidity" (tag (IEEE.m_turbidity m <? 5)%float)
             (IEEE.m_turbidity m) "NTU" a).
Proof.
  unfold IEEE.check_turbidity.
  run_check_ieee "turbidity" IEEE.m_turbidity (IEEE.m_turbidity m <? 5)%float.
Qed.

Lemma weighted_score_ieee :
  IEEE.weighted_score (IEEE.prepare_data m)
  = Py.Ok (IEEE.score_after (IEEE.tests_of m),
           IEEE.statuses_after m (IEEE.tests_of m)).
Proof.
  unfold IEEE.weighted_score.
  rewrite check_ph_ieee; cbn [Py.bind].
  rewrite check_hardness_ieee; cbn [Py.bind].
  rewrite check_sulfate_ieee; cbn [Py.bind].
  rewrite check_solids_ieee; cbn [Py.bind].
  rewrite check_chloramines_ieee; cbn [Py.bind].
  rewrite check_conductivity_ieee; cbn [Py.bind].
  rewrite check_organic_carbon_ieee; cbn [Py.bind].
  rewrite check_trihalomethanes_ieee; cbn [Py.bind].
  rewrite check_turbidity_ieee.
  reflexivity.
Qed.

Lemma predict_water_quality_ieee :
  IEEE.predict_water_quality (IEEE.prepare_data m)
  = (Some (IEEE.result_after m (IEEE.tests_of m)), []).
Proof.
  unfold IEEE.predict_water_quality, IEEE.predict_water_quality_try.
  rewrite weighted_score_ieee. reflexivity.
Qed.

Lemma outside_ieee key field lo hi :
  Py.getitem (IEEE.prepare_data m) key = Py.Ok (IEEE.Float (field m)) ->
  IEEE.outside (IEEE.prepare_data m) key lo hi
  = Py.Ok ((field m <? lo)%float || (hi <? field m)%float).
Proof.
  intros E. unfold IEEE.outside. rewrite E.
  cbn [Py.bind IEEE.lt IEEE.gt]. destruct (field m <? lo)%float; reflexivity.
Qed.

Lemma warn_above_ieee key field limit msg w :
  Py.getitem (IEEE.prepare_data m) key = Py.Ok (IEEE.Float (field m)) ->
  IEEE.warn_above (IEEE.prepare_data m) key limit msg w
  = Py.Ok (w ++ flagged [((limit <? field m)%float, msg)]).
Proof.
  intros E. unfold IEEE.warn_above. rewrite E.
  cbn [Py.bind IEEE.lt IEEE.gt flagged].
  destruct (limit <? field m)%float; cbn [app]; [| rewrite app_nil_r];
    reflexivity.
Qed.

Lemma validate_ph_ieee w :
  IEEE.validate_ph (IEEE.prepare_data m) w
  = Py.Ok (w ++ IEEE.ph_warnings (IEEE.m_ph m)).
Proof.
  unfold IEEE.validate_ph, IEEE.ph_warnings.
  rewrite !(outside_ieee "ph" IEEE.m_ph _ _ eq_refl). cbn [Py.bind].
  destruct ((IEEE.m_ph m <? 4)%float || (10 <? IEEE.m_ph m)%float);
    [reflexivity |].
  destruct ((IEEE.m_ph m <? 6.5)%float || (8.5 <? IEEE.m_ph m)%float);
    [| rewrite app_nil_r]; reflexivity.
Qed.

Lemma validate_input_ieee :
  IEEE.validate_input (IEEE.prepare_data m)
  = Py.Ok (IEEE.ph_warnings (IEEE.m_ph m) ++ flagged (IEEE.other_flags m)).
Proof.
  unfold IEEE.validate_input.
  rewrite validate_ph_ieee; cbn [Py.bind].
  rewrite (warn_above_ieee "hardness" IEEE.m_hardness _ _ _ eq_refl);
    cbn [Py.bind].
  rewrite (warn_above_ieee "solids" IEEE.m_solids _ _ _ eq_refl);
    cbn [Py.bind].
  rewrite (warn_above_ieee "chloramines" IEEE.m_chloramines _ _ _ eq_refl);
    cbn [Py.bind].
  rewrite (warn_above_ieee "sulfate" IEEE.m_sulfate _ _ _ eq_refl);
    cbn [Py.bind].
  rewrite (warn_above_ieee "conductivity" IEEE.m_conductivity _ _ _ eq_refl);
    cbn [Py.bind].
  rewrite (warn_above_ieee "organic_carbon" IEEE.m_organic_carbon _ _ _
             eq_refl); cbn [Py.bind].
  rewrite (warn_above_ieee "trihalomethanes" IEEE.m_trihalomethanes _ _ _
             eq_refl); cbn [Py.bind].
  rewrite (warn_above_ieee "turbidity" IEEE.m_turbidity _ _ _ eq_refl).
  unfold IEEE.other_flags. cbn [flagged].
  rewrite !app_nil_r, <- !app_assoc. reflexivity.
Qed.

End OnForm.

(** The sum in the code's order and in the table's order, as the table
    gives the contributions. *)
Lemma total_in_source_order m :
  IEEE.total_in IEEE.source_order m = IEEE.score_after (IEEE.tests_of m).
Proof. reflexivity. Qed.

Lemma total_in_table_order m :
  IEEE.total m = IEEE.score_in_table_order (IEEE.tests_of m).
Proof. reflexivity. Qed.

(** Every combination of test outcomes, checked by evaluation: the two
    orders of addition give the same confidence, and dividing by the sum
    of the weights gives another one. *)
Lemma confidence_in_either_order (t : tests) :
  IEEE.round1 (IEEE.score_after t / 9)
  = IEEE.round1 (IEEE.score_in_table_order t / IEEE.field_count)
  /\ is_nan (IEEE.round1 (IEEE.score_after t / 9)) = false
  /\ (IEEE.round1 (IEEE.score_after t / 9)
      =? IEEE.round1 (IEEE.score_in_table_order t / IEEE.weight_sum))%float
     = false
  /\ (IEEE.round1 (IEEE.score_after t / 9)
      =? IEEE.round1 (IEEE.score_after t / IEEE.weight_sum))%float
     = false.
Proof.
  destruct t as [[] [] [] [] [] [] [] [] [] []];
    vm_compute; repeat split; reflexivity.
Qed.

(** On this input the exact quotient is 9.05; the double nearest to it
    lies above, and the float result is 9.1. *)
Example confidence_on_a_tie :
  option_map IEEE.confidence
    (fst (IEEE.predict_water_quality
            (IEEE.prepare_data
               (IEEE.mkMeasurement 7 200 300 3 300 300 3 90 6))))
  = Some 9.1%float.
Proof. vm_compute. reflexivity. Qed.

(** ** The confidence score *)

(** C1: on every Measurement, the numbers being IEEE doubles, the nine
    checks leave in [score] the nine table contributions added from 0 in
    the order of the code, and the scorer returns a result whose
    confidence is that sum divided by the field count 9 and rounded to one
    decimal; adding the contributions in the table's order gives the same
    confidence; the weights add up to 0.9999999999999999, and dividing
    either sum by that never gives the confidence the code returns. *)
Theorem confidence_is_sum_over_field_count (m : IEEE.Measurement) :
  exists a r,
    IEEE.weighted_score (IEEE.prepare_data m) = Py.Ok a
    /\ fst a = IEEE.total_in IEEE.source_order m
    /\ IEEE.predict_water_quality (IEEE.prepare_data m) = (Some r, [])
    /\ IEEE.confidence r = IEEE.round1 (fst a / IEEE.field_count)
    /\ IEEE.confidence r = IEEE.round1 (IEEE.total m / IEEE.field_count)
    /\ IEEE.field_count = 9%float
    /\ IEEE.weight_sum = 0.9999999999999999%float
    /\ IEEE.confidence r <> IEEE.round1 (IEEE.total m / IEEE.weight_sum)
    /\ IEEE.confidence r <> IEEE.round1 (fst a / IEEE.weight_sum).
Proof.
  exists (IEEE.score_after (IEEE.tests_of m),
          IEEE.statuses_after m (IEEE.tests_of m)),
    (IEEE.result_after m (IEEE.tests_of m)).
  destruct (confidence_in_either_order (IEEE.tests_of m))
    as (E & N & D1 & D2).
  split; [apply weighted_score_ieee |].
  split; [symmetry; apply total_in_source_order |].
  split; [apply predict_water_quality_ieee |].
  cbn [fst IEEE.confidence IEEE.result_after].
  rewrite total_in_table_order.
  split; [reflexivity |].
  split; [exact E |].
  split; [reflexivity |].
  split; [reflexivity |].
  split; apply eqb_false_neq; assumption.
Qed.

(** ** The validator's warnings *)

Lemma ph_warnings_nil x :
  IEEE.ph_warnings x = []
  <-> is_nan x = true
      \/ ((6.5 <=? x)%float = true /\ (x <=? 8.5)%float = true).
Proof.
  unfold IEEE.ph_warnings. split.
  - destruct (x <? 4)%float eqn:A; [discriminate |].
    destruct (10 <? x)%float eqn:B; [discriminate |].
    destruct (x <? 6.5)%float eqn:C; [discriminate |].
    destruct (8.5 <? x)%float eqn:D; [discriminate |]. intros _.
    apply below_false in C; [| reflexivity].
    apply above_false in D; [| reflexivity]. tauto.
  - intros [N | [L U]].
    + destruct (nan_compares_false x 4 N) as (-> & _).
      destruct (nan_compares_false x 10 N) as (_ & -> & _).
      destruct (nan_compares_false x 6.5 N) as (-> & _).
      destruct (nan_compares_false x 8.5 N) as (_ & -> & _). reflexivity.
    + destruct (x <? 4)%float eqn:A.
      { pose proof (leb_ltb _ _ _ L A) as F. vm_compute in F. discriminate F. }
      destruct (10 <? x)%float eqn:B.
      { pose proof (ltb_leb_trans _ _ _ B U) as F. vm_compute in F.
        discriminate F. }
      destruct (x <? 6.5)%float eqn:C.
      { pose proof (leb_ltb _ _ _ L C) as F. vm_compute in F. discriminate F. }
      destruct (8.5 <? x)%float eqn:D.
      { pose proof (ltb_leb_trans _ _ _ D U) as F. vm_compute in F.
        discriminate F. }
      reflexivity.
Qed.

(** X5: on a Measurement, the numbers being IEEE doubles, the validator
    returns no warning exactly when the pH is NaN or within 6.5 to 8.5 and
    every other value is NaN or at most its limit (500, 1500, 8, 500,
    1500, 5, 160, 10); a value equal to its limit is not warned about,
    and neither is a NaN. *)
Theorem no_warning_iff_within_limits_or_nan (m : IEEE.Measurement) :
  IEEE.validate_input (IEEE.prepare_data m) = Py.Ok []
  <-> ((is_nan (IEEE.m_ph m) = true
        \/ ((6.5 <=? IEEE.m_ph m)%float = true
            /\ (IEEE.m_ph m <=? 8.5)%float = true))
       /\ (is_nan (IEEE.m_hardness m) = true
           \/ (IEEE.m_hardness m <=? 500)%float = true)
       /\ (is_nan (IEEE.m_solids m) = true
           \/ (IEEE.m_solids m <=? 1500)%float = true)
       /\ (is_nan (IEEE.m_chloramines m) = true
           \/ (IEEE.m_chloramines m <=? 8)%float = true)
       /\ (is_nan (IEEE.m_sulfate m) = true
           \/ (IEEE.m_sulfate m <=? 500)%float = true)
       /\ (is_nan (IEEE.m_conductivity m) = true
           \/ (IEEE.m_conductivity m <=? 1500)%float = true)
       /\ (is_nan (IEEE.m_organic_carbon m) = true
           \/ (IEEE.m_organic_carbon m <=? 5)%float = true)
       /\ (is_nan (IEEE.m_trihalomethanes m) = true
           \/ (IEEE.m_trihalomethanes m <=? 160)%float = true)
       /\ (is_nan (IEEE.m_turbidity m) = true
           \/ (IEEE.m_turbidity m <=? 10)%float = true)).
Proof.
  rewrite validate_input_ieee.
  assert (E : Py.Ok (IEEE.ph_warnings (IEEE.m_ph m)
                     ++ flagged (IEEE.other_flags m)) = Py.Ok []
              <-> IEEE.ph_warnings (IEEE.m_ph m) = []
                  /\ flagged (IEEE.other_flags m) = []).
  { split.
    - intros H. injection H as H. apply app_eq_nil in H. exact H.
    - intros [-> ->]. reflexivity. }
  rewrite E, ph_warnings_nil, flagged_nil. unfold IEEE.other_flags.
  rewrite !Forall_cons, Forall_nil. cbn [fst].
  rewrite !above_false by reflexivity. tauto.
Qed.

(** ** The validator against the scorer *)

Lemma ph_warning_not_flagged_ieee x m :
  x = hard_ph_warning \/ x = soft_ph_warning ->
  x ∉ flagged (IEEE.other_flags m).
Proof.
  intros Hx H. apply flagged_elem in H.
  unfold IEEE.other_flags in H. cbn [map snd] in H.
  repeat (apply elem_of_cons in H as [H | H];
          [destruct Hx as [-> | ->]; discriminate H |]).
  apply elem_of_nil in H. exact H.
Qed.

Lemma other_flags_NoDup_ieee m : NoDup (map snd (IEEE.other_flags m)).
Proof.
  pose proof all_warnings_NoDup as N.
  change all_warnings
    with ([hard_ph_warning; soft_ph_warning] ++ map snd (IEEE.other_flags m))
    in N.
  apply NoDup_app in N. tauto.
Qed.

(** A pH that draws a warning fails the scorer's pH test. *)
Lemma ph_warned_fails x msg :
  msg ∈ IEEE.ph_warnings x ->
  ((6.5 <=? x)%float && (x <=? 8.5)%float) = false.
Proof.
  intros H. destruct ((6.5 <=? x)%float && (x <=? 8.5)%float) eqn:T;
    [| reflexivity].
  apply andb_true_iff in T.
  rewrite (proj2 (ph_warnings_nil x) (or_intror T)) in H. inversion H.
Qed.

(** A value above the validator's limit is not below the scorer's
    threshold, the threshold being at most the limit. *)
Lemma above_limit_fails limit threshold x :
  (limit <? x)%float = true ->
  (threshold <=? limit)%float = true ->
  (x <? threshold)%float = false.
Proof.
  intros H T. destruct (x <? threshold)%float eqn:E; [| reflexivity].
  pose proof (ltb_leb_trans _ _ _ (ltb_ltb _ _ _ H E) T) as F.
  rewrite ltb_irrefl in F. discriminate F.
Qed.

Ltac flag_raised_ieee m Hm :=
  let Hc := fresh "Hc" in
  apply elem_of_app in Hm as [Hm | Hm];
  [exfalso; revert Hm; unfold IEEE.ph_warnings;
   destruct (_ || _);
   [| destruct (_ || _)];
   intros Hm;
   [apply list_elem_of_singleton in Hm; discriminate Hm
   | apply list_elem_of_singleton in Hm; discriminate Hm
   | inversion Hm]
  | eassert (_ = true) as Hc;
    [eapply (flagged_true (IEEE.other_flags m) _ _
               (other_flags_NoDup_ieee m));
     [| exact Hm];
     unfold IEEE.other_flags;
     repeat first [apply list_elem_of_here | apply list_elem_of_further]
    |] ].

Ltac marked_warning_ieee Hc :=
  cbn; erewrite above_limit_fails; [reflexivity | exact Hc | reflexivity].

(** X7: the validator against the scorer, the numbers being IEEE doubles:
    on a Measurement, a parameter the validator warns about is marked
    'warning' by the scorer; a pH marked 'good' draws neither pH warning;
    a pH that is a number and draws neither pH warning is marked 'good';
    a pH that is NaN draws neither pH warning and is marked 'warning'. *)
Theorem warned_parameter_is_marked_warning (m : IEEE.Measurement) :
  exists w r,
    IEEE.validate_input (IEEE.prepare_data m) = Py.Ok w
    /\ IEEE.predict_water_quality (IEEE.prepare_data m) = (Some r, [])
    /\ (forall msg name,
          (msg, name) ∈ warning_parameter -> msg ∈ w ->
          option_map IEEE.status (Py.get (IEEE.parameters r) name)
          = Some warning)
    /\ (option_map IEEE.status (Py.get (IEEE.parameters r) "pH") = Some good ->
        (hard_ph_warning ∉ w) /\ (soft_ph_warning ∉ w))
    /\ (is_nan (IEEE.m_ph m) = false ->
        (hard_ph_warning ∉ w) -> (soft_ph_warning ∉ w) ->
        option_map IEEE.status (Py.get (IEEE.parameters r) "pH") = Some good)
    /\ (is_nan (IEEE.m_ph m) = true ->
        (hard_ph_warning ∉ w) /\ (soft_ph_warning ∉ w)
        /\ option_map IEEE.status (Py.get (IEEE.parameters r) "pH")
           = Some warning).
Proof.
  exists (IEEE.ph_warnings (IEEE.m_ph m) ++ flagged (IEEE.other_flags m)),
    (IEEE.result_after m (IEEE.tests_of m)).
  split; [apply validate_input_ieee |].
  split; [apply predict_water_quality_ieee |].
  pose proof (ph_warning_not_flagged_ieee hard_ph_warning m
                (or_introl eq_refl)) as Nh.
  pose proof (ph_warning_not_flagged_ieee soft_ph_warning m
                (or_intror eq_refl)) as Ns.
  assert (P : option_map IEEE.status
                (Py.get (IEEE.parameters
                           (IEEE.result_after m (IEEE.tests_of m))) "pH")
              = Some (tag ((6.5 <=? IEEE.m_ph m)%float
                           && (IEEE.m_ph m <=? 8.5)%float)))
    by reflexivity.
  assert (G : ((6.5 <=? IEEE.m_ph m)%float
               && (IEEE.m_ph m <=? 8.5)%float) = true ->
              IEEE.ph_warnings (IEEE.m_ph m) = []).
  { intros T. apply ph_warnings_nil. right. apply andb_true_iff, T. }
  assert (Q : IEEE.ph_warnings (IEEE.m_ph m) = [] ->
              (hard_ph_warning ∉ IEEE.ph_warnings (IEEE.m_ph m)
                                 ++ flagged (IEEE.other_flags m))
              /\ (soft_ph_warning ∉ IEEE.ph_warnings (IEEE.m_ph m)
                                    ++ flagged (IEEE.other_flags m))).
  { intros ->. cbn [app]. split; assumption. }
  split; [| split; [| split]].
  - cbn [IEEE.parameters IEEE.result_after].
    intros msg name Hin Hm. unfold warning_parameter in Hin.
    apply elem_of_cons in Hin as [Hin | Hin].
    { injection Hin as -> ->.
      apply elem_of_app in Hm as [Hm | Hm]; [| contradiction].
      cbn. rewrite (ph_warned_fails _ _ Hm). reflexivity. }
    apply elem_of_cons in Hin as [Hin | Hin].
    { injection Hin as -> ->.
      apply elem_of_app in Hm as [Hm | Hm]; [| contradiction].
      cbn. rewrite (ph_warned_fails _ _ Hm). reflexivity. }
    apply elem_of_cons in Hin as [Hin | Hin].
    { injection Hin as -> ->. flag_raised_ieee m Hm. marked_warning_ieee Hc. }
    apply elem_of_cons in Hin as [Hin | Hin].
    { injection Hin as -> ->. flag_raised_ieee m Hm. marked_warning_ieee Hc. }
    apply elem_of_cons in Hin as [Hin | Hin].
    { injection Hin as -> ->. flag_raised_ieee m Hm. marked_warning_ieee Hc. }
    apply elem_of_cons in Hin as [Hin | Hin].
    { injection Hin as -> ->. flag_raised_ieee m Hm. marked_warning_ieee Hc. }
    apply elem_of_cons in Hin as [Hin | Hin].
    { injection Hin as -> ->. flag_raised_ieee m Hm. marked_warning_ieee Hc. }
    apply elem_of_cons in Hin as [Hin | Hin].
    { injection Hin as -> ->. flag_raised_ieee m Hm. marked_warning_ieee Hc. }
    apply elem_of_cons in Hin as [Hin | Hin].
    { injection Hin as -> ->. flag_raised_ieee m Hm. marked_warning_ieee Hc. }
    apply elem_of_cons in Hin as [Hin | Hin].
    { injection Hin as -> ->. flag_raised_ieee m Hm. marked_warning_ieee Hc. }
    inversion Hin.
  - rewrite P. intros T. apply Q, G.
    destruct (_ && _); [reflexivity | discriminate T].
  - rewrite P. intros N H1 H2.
    assert (W : IEEE.ph_warnings (IEEE.m_ph m) = []).
    { unfold IEEE.ph_warnings in *.
      destruct (_ || _);
        [exfalso; apply H1, elem_of_app; left; left |].
      destruct (_ || _);
        [exfalso; apply H2, elem_of_app; left; left | reflexivity]. }
    apply ph_warnings_nil in W as [W | W]; [congruence |].
    rewrite (proj2 (andb_true_iff _ _) W). reflexivity.
  - rewrite P. intros N.
    destruct (Q (proj2 (ph_warnings_nil _) (or_introl N))) as [H1 H2].
    split; [exact H1 |]. split; [exact H2 |].
    destruct (nan_compares_false _ 6.5 N) as (_ & _ & _ & ->). reflexivity.
Qed.

End IEEEFacts.
